(** * minio-enrich-metadata: replication, enrichment and indexing pipeline

    A shallow embedding of [main.py] and [async-main.py].

    - Python values of type [Any] are the inductive [PyVal]; a
      [Dict[str, Any]] is a [gmap string PyVal].
    - The pydantic models are records that remember which optional fields
      were passed to the constructor, as [dict(exclude_unset=True)] needs.
    - The MinIO client, the Weaviate client and the aiohttp session are
      external objects: they are records of oracles over an abstract world
      [W].  Every function of the source that talks to them is a
      computation in the state-and-exception monad [M W], whose state also
      carries the chronological trace of client requests and printed lines.
*)

From stdpp Require Import gmap strings list fin_maps.

Set Warnings "-register-all".
Open Scope string_scope.
Open Scope list_scope.

(** ** Python values *)

Inductive PyVal : Type :=
  | VNone
  | VBool (b : bool)
  | VInt (z : Z)
  | VStr (s : string)
  | VBytes (s : string)
  | VDict (d : gmap string PyVal).

Abbreviation Dict := (gmap string PyVal).

(** [d.update(other)]: every binding of [other] is written into [d]. *)
Definition dict_update (d other : Dict) : Dict := other ∪ d.

(** Python truthiness, as used by [if x:]. *)
Class Truthy (A : Type) := truthy : A → bool.

#[export] Instance truthy_bool : Truthy bool := fun b => b.
#[export] Instance truthy_dict : Truthy Dict := fun d => negb (size d =? 0)%nat.
#[export] Instance truthy_option {A} `{Truthy A} : Truthy (option A) :=
  fun o => match o with Some a => truthy a | None => false end.

(** ** Pydantic models *)

(** An optional field is either left unset (the default applies) or given
    to the constructor. *)
Inductive Field (A : Type) : Type :=
  | NotGiven
  | Given (a : A).
Arguments NotGiven {A}.
Arguments Given {A} a.

Definition of_optional {A} (inj : A → PyVal) (o : option A) : PyVal :=
  match o with Some a => inj a | None => VNone end.

(** Adds the entry of one field to a [dict(exclude_unset=True)] result. *)
Definition set_field (name : string) (f : Field PyVal) (d : Dict) : Dict :=
  match f with
  | Given v => <[name := v]> d
  | NotGiven => d
  end.

Definition field_map {A B} (g : A → B) (f : Field A) : Field B :=
  match f with Given a => Given (g a) | NotGiven => NotGiven end.

(** [model.dict(exclude_unset=True)] of a [BaseModel] subclass. *)
Class BaseModel (T : Type) := dict_exclude_unset : T → Dict.

Module MinioBucket.
Record t := mk {
  name : string;
  creation_date : Field (option string)
}.
End MinioBucket.

Module MinioObject.
Record t := mk {
  key : string;
  size : Field (option Z);
  metadata : Field Dict;
  etag : Field (option string)
}.
End MinioObject.

Module MinioFile.
Record t := mk {
  base : MinioObject.t;
  content_type : Field (option string);
  last_modified : Field (option string)
}.
End MinioFile.

#[export] Instance MinioBucket_model : BaseModel MinioBucket.t := fun b =>
  set_field "creation_date"
    (field_map (of_optional VStr) (MinioBucket.creation_date b))
    {[ "name" := VStr (MinioBucket.name b) ]}.

#[export] Instance MinioObject_model : BaseModel MinioObject.t := fun m =>
  set_field "etag" (field_map (of_optional VStr) (MinioObject.etag m))
    (set_field "metadata" (field_map VDict (MinioObject.metadata m))
       (set_field "size" (field_map (of_optional VInt) (MinioObject.size m))
          {[ "key" := VStr (MinioObject.key m) ]})).

#[export] Instance MinioFile_model : BaseModel MinioFile.t := fun f =>
  set_field "last_modified"
    (field_map (of_optional VStr) (MinioFile.last_modified f))
    (set_field "content_type"
       (field_map (of_optional VStr) (MinioFile.content_type f))
       (dict_exclude_unset (MinioFile.base f))).

(** [MinioObject(key=object_key, metadata=metadata)] *)
Definition MinioObject_key_metadata (object_key : string) (metadata : Dict)
  : MinioObject.t :=
  MinioObject.mk object_key NotGiven (Given metadata) NotGiven.

Module WeaviateClass.
Record t := mk {
  class_name : string;
  properties : Dict;
  id : option string;
  context : option Dict
}.

(** [cls(class_name=..., properties=...)]: [id] defaults to [None] and
    [context] to a fresh empty dict. *)
Definition new (class_name : string) (properties : Dict) : t :=
  mk class_name properties None (Some ∅).

Definition from_minio_model {T} `{BaseModel T}
    (class_name : string) (minio_model : T)
    (additional_props : option Dict) : t :=
  let model_dict := dict_exclude_unset minio_model in
  let model_dict :=
    match additional_props with
    | Some props =>
        if truthy props then dict_update model_dict props else model_dict
    | None => model_dict
    end in
  new class_name model_dict.

(** [data_object.dict()]: all four fields, defaults included. *)
Definition dict (w : t) : Dict :=
  {[ "class_name" := VStr (class_name w);
     "properties" := VDict (properties w);
     "id" := of_optional VStr (id w);
     "context" := of_optional VDict (context w) ]}.
End WeaviateClass.

(** ** Exceptions, traces and the monad of the scripts *)

(** A raised Python exception: whether its class derives from [Exception]
    (so that [except Exception] catches it) and its [str()]. *)
Record Exc := mkExc {
  derives_Exception : bool;
  text : string
}.

Inductive Res (A : Type) : Type :=
  | Ret (a : A)
  | Raise (e : Exc).
Arguments Ret {A} a.
Arguments Raise {A} e.

(** The stages of the pipeline; [Fetch] is the read that the coordinators
    make between replication and enrichment. *)
Inductive Stage : Type :=
  | Replication
  | Fetch
  | Enrichment
  | MetadataCommit
  | Indexing.

(** Requests made to the external clients. *)
Inductive Request : Type :=
  | GetObject (bucket object_key : string)
  | ObjectStat
  | ObjectRead
  | PutObject (bucket object_key : string) (length : Z)
  | StatObject (bucket object_key : string)
  | CopyObject (bucket object_key source : string) (metadata : Dict)
  | DataObjectCreate (data_object : Dict) (class_name : string)
  | SessionGet (url : string)
  | ResponseRead
  | SessionPut (url : string) (data : string)
  | SessionPost (url : string) (json : Dict).

(** What an observer of one run sees, in order: lines on standard output,
    requests to the clients, the exceptions the clients raise and, for the
    coordinators, the call and the return of each stage. *)
Inductive Event : Type :=
  | Print (line : string)
  | Call (r : Request)
  | Raised (e : Exc)
  | Enter (s : Stage)
  | Leave (s : Stage) (ok : bool).

Record State (W : Type) := mkState {
  world : W;
  trace : list Event
}.
Arguments mkState {W} world trace.
Arguments world {W} _.
Arguments trace {W} _.

Definition M (W A : Type) : Type := State W → Res A * State W.

Definition ret {W A} (a : A) : M W A := fun st => (Ret a, st).

Definition bind {W A B} (c : M W A) (k : A → M W B) : M W B :=
  fun st =>
    match c st with
    | (Ret a, st') => k a st'
    | (Raise e, st') => (Raise e, st')
    end.

Notation "x <- c ;; k" := (bind c (fun x => k))
  (at level 90, c at level 89, right associativity).
Notation "c ;;; k" := (bind c (fun _ => k))
  (at level 90, right associativity).

Definition emit {W} (ev : Event) : M W unit :=
  fun st => (Ret tt, mkState (world st) (trace st ++ [ev])).

Definition print {W} (line : string) : M W unit := emit (Print line).

(** One request to a client: the oracle answers and moves the world; the
    request is recorded, followed by the exception when the client raised
    one. *)
Definition request {W A} (r : Request) (oracle : W → Res A * W) : M W A :=
  fun st =>
    let '(res, w) := oracle (world st) in
    (res,
     mkState w
       (trace st ++
        Call r :: match res with Raise e => [Raised e] | Ret _ => [] end)).

(** [try: body / except Exception as e: handler e] *)
Definition try_except_Exception {W A} (body : M W A) (handler : Exc → M W A)
  : M W A :=
  fun st =>
    match body st with
    | (Ret a, st') => (Ret a, st')
    | (Raise e, st') =>
        if derives_Exception e then handler e st' else (Raise e, st')
    end.

(** A stage called by a coordinator: the call and the outcome the
    coordinator sees ([ok] applied to the returned value) are recorded
    around it.  These two events are ghost state. *)
Definition invoke {W A} (s : Stage) (ok : A → bool) (c : M W A) : M W A :=
  emit (Enter s) ;;;
  r <- c ;;
  emit (Leave s (ok r)) ;;;
  ret r.

(** ** The external clients *)

(** The [minio] client used by [main.py] and by [MinioWeaviateManager];
    [Obj] is the response object that [get_object] returns. *)
Record MinioClient (W Obj : Type) := {
  get_object : string → string → W → Res Obj * W;
  object_stat_st_size : Obj → W → Res Z * W;
  object_read : Obj → W → Res string * W;
  put_object : string → string → Obj → Z → W → Res unit * W;
  stat_object_metadata : string → string → W → Res Dict * W;
  copy_object : string → string → string → Dict → W → Res unit * W
}.
Arguments get_object {W Obj} _.
Arguments object_stat_st_size {W Obj} _.
Arguments object_read {W Obj} _.
Arguments put_object {W Obj} _.
Arguments stat_object_metadata {W Obj} _.
Arguments copy_object {W Obj} _.

(** The [weaviate] client: [data_object.create(data_object, class_name)]. *)
Record WeaviateClient (W : Type) := {
  data_object_create : Dict → string → W → Res unit * W
}.
Arguments data_object_create {W} _.

(** The [aiohttp.ClientSession] of [AsyncMinioWeaviateManager]; [Resp] is
    the response object bound by [async with]. *)
Record ClientSession (W Resp : Type) := {
  session_get : string → W → Res Resp * W;
  session_put : string → string → W → Res Resp * W;
  session_post : string → Dict → W → Res Resp * W;
  response_status : Resp → Z;
  response_read : Resp → W → Res string * W
}.
Arguments session_get {W Resp} _.
Arguments session_put {W Resp} _.
Arguments session_post {W Resp} _.
Arguments response_status {W Resp} _.
Arguments response_read {W Resp} _.

(** [o[k]] for the value a fetch returned: [KeyError] on a missing key,
    [TypeError] on [None]. *)
Definition subscript {W} (o : option Dict) (k : string) : M W PyVal :=
  fun st =>
    match o with
    | Some d =>
        match d !! k with
        | Some v => (Ret v, st)
        | None => (Raise (mkExc true ("'" +:+ k +:+ "'")), st)
        end
    | None =>
        (Raise (mkExc true "'NoneType' object is not subscriptable"), st)
    end.

(** ** main.py: the synchronous script *)

Definition process_object_content_for_metadata_enrichment (content : PyVal)
  : Dict :=
  let enriched_metadata : Dict := {[ "example_key" := VStr "example_value" ]} in
  enriched_metadata.

Section Main.

Context {W Obj : Type}.

(** The module-level clients, initialised outside the script. *)
Variable minio_client : MinioClient W Obj.
Variable weaviate_client : WeaviateClient W.

Definition replicate_object (source_bucket target_bucket object_key : string)
  : M W bool :=
  try_except_Exception
    (source_object <-
       request (GetObject source_bucket object_key)
         (get_object minio_client source_bucket object_key) ;;
     st_size <-
       request ObjectStat (object_stat_st_size minio_client source_object) ;;
     request (PutObject target_bucket object_key st_size)
       (put_object minio_client target_bucket object_key source_object
          st_size) ;;;
     ret true)
    (fun e =>
       print ("Error replicating object: " +:+ text e) ;;;
       ret false).

Definition fetch_object_content_and_metadata (bucket object_key : string)
  : M W (option Dict) :=
  try_except_Exception
    (object_data <-
       request (GetObject bucket object_key)
         (get_object minio_client bucket object_key) ;;
     metadata <-
       request (StatObject bucket object_key)
         (stat_object_metadata minio_client bucket object_key) ;;
     content <- request ObjectRead (object_read minio_client object_data) ;;
     ret (Some ({[ "content" := VBytes content;
                   "metadata" := VDict metadata ]} : Dict)))
    (fun e =>
       print ("Error fetching object content and metadata: " +:+ text e) ;;;
       ret None).

Definition update_object_metadata_in_minio (bucket object_key : string)
    (metadata : Dict) : M W bool :=
  try_except_Exception
    (request
       (CopyObject bucket object_key ("/" +:+ bucket +:+ "/" +:+ object_key)
          metadata)
       (copy_object minio_client bucket object_key
          ("/" +:+ bucket +:+ "/" +:+ object_key) metadata) ;;;
     ret true)
    (fun e =>
       print ("Error updating object metadata: " +:+ text e) ;;;
       ret false).

(** The record that the indexing functions build and send. *)
Definition index_data_object (class_name object_key : string)
    (metadata : Dict) : WeaviateClass.t :=
  WeaviateClass.from_minio_model class_name
    (MinioObject_key_metadata object_key metadata) None.

Definition index_object_and_metadata_in_weaviate
    (class_name object_key : string) (metadata : Dict) : M W bool :=
  try_except_Exception
    (let data_object := index_data_object class_name object_key metadata in
     request (DataObjectCreate (WeaviateClass.dict data_object) class_name)
       (data_object_create weaviate_client (WeaviateClass.dict data_object)
          class_name) ;;;
     ret true)
    (fun e =>
       print ("Error indexing object and metadata in Weaviate: " +:+ text e) ;;;
       ret false).

(** [handle_minio_event] with the enrichment call left open, so that the
    coordinator can also be run with another enrichment plugged in. *)
Definition handle_minio_event_with (enrich : PyVal → M W Dict)
    (class_name source_bucket target_bucket object_key : string) : M W unit :=
  replicated <-
    invoke Replication truthy
      (replicate_object source_bucket target_bucket object_key) ;;
  if truthy replicated then
    object_data <-
      invoke Fetch truthy
        (fetch_object_content_and_metadata target_bucket object_key) ;;
    if truthy object_data then
      content <- subscript object_data "content" ;;
      enriched_metadata <-
        invoke Enrichment (fun _ => true) (enrich content) ;;
      updated <-
        invoke MetadataCommit truthy
          (update_object_metadata_in_minio target_bucket object_key
             enriched_metadata) ;;
      if truthy updated then
        invoke Indexing truthy
          (index_object_and_metadata_in_weaviate class_name object_key
             enriched_metadata) ;;;
        ret tt
      else ret tt
    else ret tt
  else ret tt.

Definition handle_minio_event : string → string → string → string → M W unit :=
  handle_minio_event_with
    (fun content =>
       ret (process_object_content_for_metadata_enrichment content)).

End Main.

(** ** main.py: the asynchronous placeholders *)

(** What [handle_minio_event_async] calls on the two managers it is given. *)
Record MinioManagerMethods (W : Type) := {
  mm_replicate_object : string → string → string → M W bool;
  mm_fetch_object_content_and_metadata : string → string → M W (option Dict)
}.
Arguments mm_replicate_object {W} _.
Arguments mm_fetch_object_content_and_metadata {W} _.

Record WeaviateManagerMethods (W : Type) := {
  wm_index_object : string → string → Dict → M W bool
}.
Arguments wm_index_object {W} _.

Module MinioManager.
Definition replicate_object {W}
    (source_bucket target_bucket object_key : string) : M W bool :=
  ret true.

Definition fetch_object_content_and_metadata {W} (bucket object_key : string)
  : M W (option Dict) :=
  ret (Some ({[ "content" := VStr "example_content";
                "metadata" :=
                  VDict {[ "example_key" := VStr "example_value" ]} ]} : Dict)).

Definition methods {W} : MinioManagerMethods W :=
  {| mm_replicate_object := replicate_object;
     mm_fetch_object_content_and_metadata := fetch_object_content_and_metadata |}.
End MinioManager.

Module WeaviateManager.
Definition index_object {W} (class_name object_key : string)
    (metadata : Dict) : M W bool :=
  ret true.

Definition methods {W} : WeaviateManagerMethods W :=
  {| wm_index_object := index_object |}.
End WeaviateManager.

Definition handle_minio_event_async {W}
    (minio_manager : MinioManagerMethods W)
    (weaviate_manager : WeaviateManagerMethods W)
    (class_name source_bucket target_bucket object_key : string) : M W unit :=
  replication_success <-
    invoke Replication truthy
      (mm_replicate_object minio_manager source_bucket target_bucket
         object_key) ;;
  if truthy replication_success then
    object_data <-
      invoke Fetch truthy
        (mm_fetch_object_content_and_metadata minio_manager target_bucket
           object_key) ;;
    if truthy object_data then
      let enriched_metadata : Dict :=
        {[ "processed_key" := VStr "processed_value" ]} in
      index_success <-
        invoke Indexing truthy
          (wm_index_object weaviate_manager class_name object_key
             enriched_metadata) ;;
      if truthy index_success then print "Object indexed successfully."
      else print "Failed to index object."
    else print "Failed to fetch object content and metadata."
  else print "Failed to replicate object.".

(** ** async-main.py *)

Section MinioWeaviateManager.

Context {W Obj : Type}.
Variable minio_client : MinioClient W Obj.
Variable weaviate_client : WeaviateClient W.

Definition replicate_object_sync
    (source_bucket target_bucket object_key : string) : M W bool :=
  try_except_Exception
    (source_object <-
       request (GetObject source_bucket object_key)
         (get_object minio_client source_bucket object_key) ;;
     st_size <-
       request ObjectStat (object_stat_st_size minio_client source_object) ;;
     request (PutObject target_bucket object_key st_size)
       (put_object minio_client target_bucket object_key source_object
          st_size) ;;;
     ret true)
    (fun e =>
       print ("Error replicating object: " +:+ text e) ;;;
       ret false).

Definition index_object_sync (class_name object_key : string)
    (metadata : Dict) : M W bool :=
  try_except_Exception
    (let data_object := index_data_object class_name object_key metadata in
     request (DataObjectCreate (WeaviateClass.dict data_object) class_name)
       (data_object_create weaviate_client (WeaviateClass.dict data_object)
          class_name) ;;;
     ret true)
    (fun e =>
       print ("Error indexing object in Weaviate: " +:+ text e) ;;;
       ret false).

End MinioWeaviateManager.

Section AsyncMinioWeaviateManager.

Context {W Resp : Type}.
Variable minio_endpoint weaviate_endpoint : string.
Variable session : ClientSession W Resp.

(** Leaving an [async with] block releases the response and makes no
    request. *)
Definition replicate_object_async
    (source_bucket target_bucket object_key : string) : M W bool :=
  try_except_Exception
    (let object_url :=
       minio_endpoint +:+ "/" +:+ source_bucket +:+ "/" +:+ object_key in
     response <-
       request (SessionGet object_url) (session_get session object_url) ;;
     if (response_status session response =? 200)%Z then
       object_data <-
         request ResponseRead (response_read session response) ;;
       let target_url :=
         minio_endpoint +:+ "/" +:+ target_bucket +:+ "/" +:+ object_key in
       put_response <-
         request (SessionPut target_url object_data)
           (session_put session target_url object_data) ;;
       ret (response_status session put_response =? 200)%Z
     else ret false)
    (fun e =>
       print ("Error replicating object asynchronously: " +:+ text e) ;;;
       ret false).

Definition index_object_async (class_name object_key : string)
    (metadata : Dict) : M W bool :=
  try_except_Exception
    (let data_object := index_data_object class_name object_key metadata in
     let object_data := WeaviateClass.dict data_object in
     let index_url := weaviate_endpoint +:+ "/objects" in
     response <-
       request (SessionPost index_url object_data)
         (session_post session index_url object_data) ;;
     ret (response_status session response =? 200)%Z)
    (fun e =>
       print ("Error indexing object in Weaviate asynchronously: "
              +:+ text e) ;;;
       ret false).

End AsyncMinioWeaviateManager.

(** ** Test doubles for the external clients *)

(** An in-memory object store and index.  [put_object] stores the bytes of
    the response it is given, without user metadata; [copy_object] replaces
    the metadata of the object in place; [create] is given no id and adds
    one more record to the index.  Every store operation that writes bumps
    [writes].  A fault plan makes chosen requests raise. *)
Module Mem.

Record StoredObject := mkObject {
  data : string;
  user_metadata : Dict;
  etag : string
}.

Record World := mkWorld {
  objects : gmap (string * string) StoredObject;
  index : list (string * Dict);
  writes : nat
}.

Definition no_fault : Request → option Exc := fun _ => None.

Definition guarded {A} (fault : Request → option Exc) (r : Request)
    (op : World → Res A * World) : World → Res A * World :=
  fun w =>
    match fault r with
    | Some e => (Raise e, w)
    | None => op w
    end.

Definition NoSuchKey : Exc := mkExc true "NoSuchKey".

Definition minio (fault : Request → option Exc)
  : MinioClient World StoredObject :=
  {| get_object := fun bucket object_key =>
       guarded fault (GetObject bucket object_key) (fun w =>
         match objects w !! (bucket, object_key) with
         | Some o => (Ret o, w)
         | None => (Raise NoSuchKey, w)
         end);
     object_stat_st_size := fun o =>
       guarded fault ObjectStat (fun w =>
         (Ret (Z.of_nat (String.length (data o))), w));
     object_read := fun o =>
       guarded fault ObjectRead (fun w => (Ret (data o), w));
     put_object := fun bucket object_key o st_size =>
       guarded fault (PutObject bucket object_key st_size) (fun w =>
         (Ret tt,
          mkWorld
            (<[(bucket, object_key) := mkObject (data o) ∅ (etag o)]>
               (objects w))
            (index w) (S (writes w))));
     stat_object_metadata := fun bucket object_key =>
       guarded fault (StatObject bucket object_key) (fun w =>
         match objects w !! (bucket, object_key) with
         | Some o => (Ret (user_metadata o), w)
         | None => (Raise NoSuchKey, w)
         end);
     copy_object := fun bucket object_key source metadata =>
       guarded fault (CopyObject bucket object_key source metadata) (fun w =>
         match objects w !! (bucket, object_key) with
         | Some o =>
             (Ret tt,
              mkWorld
                (<[(bucket, object_key) := mkObject (data o) metadata (etag o)]>
                   (objects w))
                (index w) (S (writes w)))
         | None => (Raise NoSuchKey, w)
         end) |}.

Definition weaviate (fault : Request → option Exc) : WeaviateClient World :=
  {| data_object_create := fun data_object class_name =>
       guarded fault (DataObjectCreate data_object class_name) (fun w =>
         (Ret tt,
          mkWorld (objects w) (index w ++ [(class_name, data_object)])
            (writes w))) |}.

(** The object key that an index record was built for. *)
Definition record_key (rec : string * Dict) : option PyVal :=
  match rec.2 !! "properties" with
  | Some (VDict props) => props !! "key"
  | _ => None
  end.

Definition is_record_for (object_key : string) (rec : string * Dict) : bool :=
  match record_key rec with
  | Some (VStr k) => String.eqb k object_key
  | _ => false
  end.

Definition records_for (object_key : string) (w : World)
  : list (string * Dict) :=
  List.filter (is_record_for object_key) (index w).

Definition start (w : World) : State World := mkState w [].

End Mem.

(** An HTTP server holding one body per URL: [GET] answers 200 with the
    body or 404, [PUT] and [POST] store and answer 200. *)
Module Http.

Definition World := gmap string string.
Definition Resp := (Z * string)%type.

Definition session : ClientSession World Resp :=
  {| session_get := fun url w =>
       (Ret (match w !! url with
             | Some body => (200%Z, body)
             | None => (404%Z, "")
             end), w);
     session_put := fun url body w =>
       (Ret (200%Z, ""), <[url := body]> w);
     session_post := fun url json w =>
       (Ret (200%Z, ""), <[url := "json"]> w);
     response_status := fst;
     response_read := fun resp w => (Ret resp.2, w) |}.

End Http.

(** ** Reading a trace *)

Definition requests (tr : list Event) : list Request :=
  omap (fun ev => match ev with Call r => Some r | _ => None end) tr.

Definition printed (tr : list Event) : list string :=
  omap (fun ev => match ev with Print line => Some line | _ => None end) tr.

Definition exceptions (tr : list Event) : list Exc :=
  omap (fun ev => match ev with Raised e => Some e | _ => None end) tr.

Definition stage_events (tr : list Event) : list Event :=
  omap (fun ev =>
          match ev with
          | Enter _ | Leave _ _ => Some ev
          | _ => None
          end) tr.

Definition entered (tr : list Event) : list Stage :=
  omap (fun ev => match ev with Enter s => Some s | _ => None end) tr.

Definition is_put (r : Request) : bool :=
  match r with PutObject _ _ _ => true | _ => false end.

Definition is_copy (r : Request) : bool :=
  match r with CopyObject _ _ _ _ => true | _ => false end.

Definition count (p : Request → bool) (tr : list Event) : nat :=
  length (List.filter p (requests tr)).

(** The stage events of one coordinator run over the stage list [stages]:
    the stages are called in order, each one after the previous one left
    with a truthy result; the run ends with the first falsy result, with
    the last stage, or inside a stage that let an exception through. *)
Fixpoint run_of (stages : list Stage) (evs : list Event) : Prop :=
  match stages with
  | [] => evs = []
  | s :: rest =>
      match evs with
      | [Enter s1] => s1 = s
      | Enter s1 :: Leave s2 ok :: evs' =>
          s1 = s ∧ s2 = s ∧ if ok then run_of rest evs' else evs' = []
      | _ => False
      end
  end.

Definition sync_stages : list Stage :=
  [Replication; Fetch; Enrichment; MetadataCommit; Indexing].

Definition async_stages : list Stage := [Replication; Fetch; Indexing].

(** A manager method that leaves the coordinator's own stage events alone. *)
Definition stage_silent {W A} (c : M W A) : Prop :=
  ∀ st, ∃ delta,
    trace (c st).2 = trace st ++ delta ∧ stage_events delta = [].

(** The line a stage of [main.py] prints when it catches [e]. *)
Definition stage_message (s : Stage) (e : Exc) : string :=
  match s with
  | Replication => "Error replicating object: " +:+ text e
  | Fetch => "Error fetching object content and metadata: " +:+ text e
  | Enrichment => ""
  | MetadataCommit => "Error updating object metadata: " +:+ text e
  | Indexing => "Error indexing object and metadata in Weaviate: " +:+ text e
  end.

Definition failed_stages (tr : list Event) : list Stage :=
  omap (fun ev => match ev with Leave s false => Some s | _ => None end) tr.

(** The three things a gated pipeline promises about its stage events. *)
Definition runs_in_order (stages : list Stage) (evs : list Event) : Prop :=
  entered evs `prefix_of` stages.

Definition each_after_success (stages : list Stage) (evs : list Event)
  : Prop :=
  ∀ pre s post, evs = pre ++ Enter s :: post →
    (pre = [] ∧ head stages = Some s) ∨
    ∃ pre' p l1 l2,
      pre = pre' ++ [Leave p true] ∧ stages = l1 ++ p :: s :: l2.

Definition stops_at_failure (evs : list Event) : Prop :=
  ∀ pre s post, evs = pre ++ Leave s false :: post → post = [].

(** What [try: ... except Exception] makes of one call of a stage
    function.  Either the call returns: every exception a client raised
    derives from [Exception], and the value is [failed] as soon as there
    was one.  Or an exception leaves the function: it was raised by a
    client and does not derive from [Exception]. *)
Definition catches_only_Exception {W A} (failed : A) (c : M W A)
    (st : State W) : Prop :=
  ∃ delta,
    trace (c st).2 = trace st ++ delta ∧
    match (c st).1 with
    | Ret v =>
        Forall (fun e => derives_Exception e = true) (exceptions delta) ∧
        (exceptions delta ≠ [] → v = failed)
    | Raise e =>
        derives_Exception e = false ∧ last (exceptions delta) = Some e
    end.

(** Whether a request names the bucket [b]. *)
Definition names_bucket (b : string) (r : Request) : bool :=
  match r with
  | GetObject b' _ | PutObject b' _ _ | StatObject b' _
  | CopyObject b' _ _ _ => String.eqb b' b
  | _ => false
  end.

(** The placeholder metadata of [main.py]. *)
Definition example_metadata : Dict := {[ "example_key" := VStr "example_value" ]}.

(** Worlds and fault plans used as concrete inputs. *)
Definition img1_world : Mem.World :=
  Mem.mkWorld {[ ("raw", "img1") := Mem.mkObject "pixels" ∅ "e1" ]} [] 0.

Definition img1_replicated_world : Mem.World :=
  Mem.mkWorld
    {[ ("raw", "img1") := Mem.mkObject "pixels" ∅ "e1";
       ("processed", "img1") := Mem.mkObject "pixels" ∅ "e1" ]} [] 0.

Definition get_fails (reason : string) (r : Request) : option Exc :=
  match r with
  | GetObject _ _ => Some (mkExc true reason)
  | _ => None
  end.

Definition copy_conflicts (r : Request) : option Exc :=
  match r with
  | CopyObject _ _ _ _ => Some (mkExc true "PreconditionFailed")
  | _ => None
  end.

Definition create_fails (r : Request) : option Exc :=
  match r with
  | DataObjectCreate _ _ => Some (mkExc true "UnexpectedStatusCode")
  | _ => None
  end.

(** A MinIO client whose [stat_object] reports the metadata [m] for every
    object and otherwise behaves as [c]. *)
Definition with_metadata {W Obj} (m : Dict) (c : MinioClient W Obj)
  : MinioClient W Obj :=
  {| get_object := get_object c;
     object_stat_st_size := object_stat_st_size c;
     object_read := object_read c;
     put_object := put_object c;
     stat_object_metadata := fun _ _ w => (Ret m, w);
     copy_object := copy_object c |}.

(** A signal that does not derive from [Exception]. *)
Definition KeyboardInterrupt : Exc := mkExc false "KeyboardInterrupt".

(** The fault plan of a run interrupted during its first request. *)
Definition interrupted (r : Request) : option Exc := Some KeyboardInterrupt.

(** A server that answers every request with status 500; the response
    object is its status. *)
Definition rejecting_session : ClientSession unit Z :=
  {| session_get := fun _ w => (Ret 500%Z, w);
     session_put := fun _ _ w => (Ret 500%Z, w);
     session_post := fun _ _ w => (Ret 500%Z, w);
     response_status := fun status => status;
     response_read := fun _ w => (Ret "", w) |}.

(** A session whose task is cancelled during every request. *)
Definition cancelled_session : ClientSession unit unit :=
  {| session_get := fun _ w => (Raise (mkExc false "CancelledError"), w);
     session_put := fun _ _ w => (Raise (mkExc false "CancelledError"), w);
     session_post := fun _ _ w => (Raise (mkExc false "CancelledError"), w);
     response_status := fun _ => 200%Z;
     response_read := fun _ w => (Raise (mkExc false "CancelledError"), w) |}.

(** What one call of a replication function does, seen from outside: [out]
    is its result and final state when started in [st]. *)
Definition replication_outcome {W}
    (source_bucket target_bucket object_key : string) (st : State W)
    (out : Res bool * State W) : Prop :=
  ∃ delta,
    trace out.2 = trace st ++ delta ∧
    (requests delta = [GetObject source_bucket object_key] ∨
     requests delta = [GetObject source_bucket object_key; ObjectStat] ∨
     ∃ n, requests delta =
            [GetObject source_bucket object_key; ObjectStat;
             PutObject target_bucket object_key n]) ∧
    (out.1 = Ret true ↔ exceptions delta = []) ∧
    (out.1 = Ret true → count is_put delta = 1).

(** ** async-main.py: the example run *)

(** [main()], given the session that [aiohttp.ClientSession()] opens. *)
Definition main {W Resp : Type} (session : ClientSession W Resp) : M W unit :=
  replication_success <-
    replicate_object_async "http://minio.local" session
      "source-bucket" "target-bucket" "object-key" ;;
  (if truthy replication_success
   then print "Object replicated successfully."
   else print "Failed to replicate object.") ;;;
  indexing_success <-
    index_object_async "http://weaviate.local" session
      "ExampleClass" "object-key" {[ "metadata_key" := VStr "metadata_value" ]} ;;
  if truthy indexing_success
  then print "Object indexed successfully."
  else print "Failed to index object.".

(** A manager method that adds no stage event and prints nothing. *)
Definition quiet {W A} (c : M W A) : Prop :=
  ∀ st, ∃ delta,
    trace (c st).2 = trace st ++ delta ∧
    stage_events delta = [] ∧ printed delta = [].

(** The line [handle_minio_event_async] prints, by the stage that returned
    a falsy result. *)
Definition async_message (failed : list Stage) : string :=
  match failed with
  | [] => "Object indexed successfully."
  | Replication :: _ => "Failed to replicate object."
  | Fetch :: _ => "Failed to fetch object content and metadata."
  | _ => "Failed to index object."
  end.

(** The eight requests of a complete run of [handle_minio_event], where
    [n] is the size the source object reported. *)
Definition complete_run_requests
    (class_name source_bucket target_bucket object_key : string) (n : Z)
  : list Request :=
  [GetObject source_bucket object_key; ObjectStat;
   PutObject target_bucket object_key n;
   GetObject target_bucket object_key; StatObject target_bucket object_key;
   ObjectRead;
   CopyObject target_bucket object_key
     ("/" +:+ target_bucket +:+ "/" +:+ object_key) example_metadata;
   DataObjectCreate
     (WeaviateClass.dict
        (index_data_object class_name object_key example_metadata))
     class_name].

(** * Properties *)

(** ** The pydantic models *)

Lemma truthy_dict_false (d : Dict) : truthy d = false → d = ∅.
Proof.
  unfold truthy, truthy_dict. intros H.
  apply map_size_empty_iff. apply Nat.eqb_eq.
  by destruct (size d =? 0)%nat.
Qed.

Lemma dict_update_lookup (d other : Dict) (k : string) :
  dict_update d other !! k =
  match other !! k with Some v => Some v | None => d !! k end.
Proof.
  unfold dict_update. rewrite lookup_union.
  destruct (other !! k), (d !! k); reflexivity.
Qed.

Lemma dict_update_empty (d : Dict) : dict_update d ∅ = d.
Proof. unfold dict_update. apply (left_id_L ∅ (∪)). Qed.

Lemma MinioObject_dict_lookup (m : MinioObject.t) (k : string) :
  dict_exclude_unset m !! k =
  if decide (k = "etag") then
    match MinioObject.etag m with
    | Given v => Some (of_optional VStr v) | NotGiven => None end
  else if decide (k = "metadata") then
    match MinioObject.metadata m with
    | Given v => Some (VDict v) | NotGiven => None end
  else if decide (k = "size") then
    match MinioObject.size m with
    | Given v => Some (of_optional VInt v) | NotGiven => None end
  else if decide (k = "key") then Some (VStr (MinioObject.key m))
  else None.
Proof.
  destruct m as [key [|sz] [|md] [|et]];
    unfold dict_exclude_unset, MinioObject_model; cbn [set_field field_map
      MinioObject.etag MinioObject.metadata MinioObject.size MinioObject.key];
    repeat case_decide; subst; simplify_map_eq; try reflexivity; try congruence.
Qed.

(** The entries of [m.dict(exclude_unset=True)], field by field: the key
    is always there; [size], [metadata] and [etag] are there exactly when
    they were passed to the constructor, with the value passed ([None]
    included); there is no other entry. *)
Lemma MinioObject_dict_fields (m : MinioObject.t) (k : string) :
  dict_exclude_unset m !! k =
  if decide (k = "key") then Some (VStr (MinioObject.key m))
  else if decide (k = "size") then
    match MinioObject.size m with
    | Given (Some z) => Some (VInt z)
    | Given None => Some VNone
    | NotGiven => None
    end
  else if decide (k = "metadata") then
    match MinioObject.metadata m with
    | Given md => Some (VDict md)
    | NotGiven => None
    end
  else if decide (k = "etag") then
    match MinioObject.etag m with
    | Given (Some t) => Some (VStr t)
    | Given None => Some VNone
    | NotGiven => None
    end
  else None.
Proof.
  rewrite MinioObject_dict_lookup.
  destruct m as [key [|[sz|]] [|md] [|[et|]]];
    cbn [MinioObject.etag MinioObject.metadata MinioObject.size
         MinioObject.key of_optional];
    repeat case_decide; simplify_eq; reflexivity.
Qed.

(** C9. [WeaviateClass.from_minio_model(c, m, d)] has class name [c], id
    [None], and as properties the dictionary of the fields of [m] that were
    explicitly set, updated with [d] (nothing when [d] is [None]).  Entry
    by entry: a key of [d] has the value [d] gives it, also when [m] has a
    field of that name; any other key is a field of [m]: ["key"] with the
    object key, and ["size"], ["metadata"], ["etag"] with the value passed
    to the constructor when one was passed; nothing else is there. *)
Theorem from_minio_model_spec (c : string) (m : MinioObject.t)
    (d : option Dict) :
  let w := WeaviateClass.from_minio_model c m d in
  WeaviateClass.class_name w = c ∧
  WeaviateClass.id w = None ∧
  WeaviateClass.properties w =
    dict_update (dict_exclude_unset m) (default ∅ d) ∧
  (∀ k, WeaviateClass.properties w !! k =
        match default ∅ d !! k with
        | Some v => Some v
        | None => dict_exclude_unset m !! k
        end) ∧
  (∀ k, WeaviateClass.properties w !! k =
        match default ∅ d !! k with
        | Some v => Some v
        | None =>
            if decide (k = "key") then Some (VStr (MinioObject.key m))
            else if decide (k = "size") then
              match MinioObject.size m with
              | Given (Some z) => Some (VInt z)
              | Given None => Some VNone
              | NotGiven => None
              end
            else if decide (k = "metadata") then
              match MinioObject.metadata m with
              | Given md => Some (VDict md)
              | NotGiven => None
              end
            else if decide (k = "etag") then
              match MinioObject.etag m with
              | Given (Some t) => Some (VStr t)
              | Given None => Some VNone
              | NotGiven => None
              end
            else None
        end).
Proof.
  assert (Hprops : WeaviateClass.properties
                     (WeaviateClass.from_minio_model c m d) =
                   dict_update (dict_exclude_unset m) (default ∅ d)).
  { unfold WeaviateClass.from_minio_model, WeaviateClass.new.
    destruct d as [props|]; cbn [WeaviateClass.properties default].
    - destruct (truthy props) eqn:Ht; [reflexivity|].
      apply truthy_dict_false in Ht. subst props.
      by rewrite dict_update_empty.
    - by rewrite dict_update_empty. }
  cbv zeta. repeat split; [exact Hprops| |].
  - intros k. rewrite Hprops. apply dict_update_lookup.
  - intros k. rewrite Hprops, dict_update_lookup.
    by rewrite MinioObject_dict_fields.
Qed.

(** ** Runs of a gated pipeline *)

Lemma stage_events_app (l1 l2 : list Event) :
  stage_events (l1 ++ l2) = stage_events l1 ++ stage_events l2.
Proof. apply omap_app. Qed.

Lemma run_of_in_order (stages : list Stage) (evs : list Event) :
  run_of stages evs → runs_in_order stages evs.
Proof.
  unfold runs_in_order. revert evs.
  induction stages as [|s rest IH]; intros evs H; cbn in H.
  - subst evs. apply prefix_nil.
  - destruct evs as [|[] [|[] evs']]; try contradiction; cbn.
    + subst. apply prefix_cons, prefix_nil.
    + destruct H as (-> & -> & H). apply prefix_cons.
      destruct ok; [by apply IH | subst; apply prefix_nil].
Qed.

Lemma run_of_stops_at_failure (stages : list Stage) (evs : list Event) :
  run_of stages evs → stops_at_failure evs.
Proof.
  unfold stops_at_failure. revert evs.
  induction stages as [|s rest IH]; intros evs H pre s0 post Heq; cbn in H.
  - subst evs. by destruct pre.
  - destruct evs as [|[] [|[] evs']]; try contradiction.
    + destruct pre as [|? [|? ?]]; discriminate.
    + destruct H as (-> & -> & H).
      destruct pre as [|? [|? pre]]; simplify_eq/=; [done|].
      destruct ok; [eapply IH; eauto | by destruct pre].
Qed.

Lemma run_of_each_after_success (stages : list Stage) (evs : list Event) :
  run_of stages evs → each_after_success stages evs.
Proof.
  unfold each_after_success. revert evs.
  induction stages as [|s rest IH]; intros evs H pre s0 post Heq; cbn in H.
  - subst evs. by destruct pre.
  - destruct evs as [|[] [|[] evs']]; try contradiction.
    + destruct pre as [|? [|? ?]]; simplify_eq/=. by left.
    + destruct H as (-> & -> & H).
      destruct pre as [|? [|? pre]]; simplify_eq/=; [by left|].
      right. destruct ok; [|by destruct pre].
      destruct (IH _ H _ _ _ eq_refl)
        as [[-> Hhd]|(pre' & p & l1 & l2 & -> & ->)].
      * destruct rest as [|s1 rest]; simplify_eq/=.
        by exists [Enter s], s, [], rest.
      * by exists (Enter s :: Leave s true :: pre'), p, (s :: l1), l2.
Qed.

(** ** Symbolic execution of the scripts *)

Lemma fetched_truthy (c m : PyVal) :
  truthy_dict {[ "content" := c; "metadata" := m ]} = true.
Proof.
  cbv [truthy_dict].
  rewrite map_size_insert_None by done. by rewrite map_size_singleton.
Qed.

Lemma fetched_content {W} (c m : PyVal) (st : State W) :
  subscript (Some ({[ "content" := c; "metadata" := m ]} : Dict)) "content" st
  = (Ret c, st).
Proof. unfold subscript. by rewrite lookup_insert_eq. Qed.

Ltac unfold_main :=
  unfold handle_minio_event, handle_minio_event_with, replicate_object,
    fetch_object_content_and_metadata, update_object_metadata_in_minio,
    index_object_and_metadata_in_weaviate, replicate_object_sync,
    index_object_sync, replicate_object_async, index_object_async.

Ltac unfold_monad :=
  cbv beta iota zeta delta
    [bind ret emit print request try_except_Exception invoke
     truthy truthy_bool truthy_option];
  cbn [world trace derives_Exception fst snd].

(** Case analysis on the answer of the next oracle: a value, an exception
    deriving from [Exception], or another exception. *)
Ltac oracle_step :=
  match goal with
  | |- context [match ?o with pair _ _ => _ end] =>
      lazymatch o with
      | context [match _ with _ => _ end] => fail
      | _ => destruct o as [[?|[[] ?]] ?] eqn:?
      end
  end.

Ltac symex :=
  unfold_main; unfold_monad;
  repeat (first [ rewrite fetched_truthy | rewrite fetched_content
                | oracle_step ]; unfold_monad).

(** The events added by a run, once it has been executed. *)
Ltac take_delta :=
  rewrite <- ?app_assoc; eexists; split; [reflexivity|]; cbn.

(** ** The coordinators *)

(** C1, as the code has it.  [handle_minio_event] calls Replication, the
    fetch, Enrichment, Metadata Commit and Indexing in this order, and
    [handle_minio_event_async], which has no Metadata Commit stage and no
    enrichment call, calls Replication, the fetch and Indexing in this
    order.  In both, a stage is called only right after the previous one
    returned a truthy result, and nothing is called after a stage returned
    a falsy one. *)
Theorem coordinators_gate_their_stages {W Obj : Type}
    (minio_client : MinioClient W Obj) (weaviate_client : WeaviateClient W)
    (minio_manager : MinioManagerMethods W)
    (weaviate_manager : WeaviateManagerMethods W)
    (class_name source_bucket target_bucket object_key : string)
    (st : State W) :
  (∀ a b c, stage_silent (mm_replicate_object minio_manager a b c)) →
  (∀ a b,
     stage_silent (mm_fetch_object_content_and_metadata minio_manager a b)) →
  (∀ a b c, stage_silent (wm_index_object weaviate_manager a b c)) →
  (∃ delta,
     trace (handle_minio_event minio_client weaviate_client class_name
              source_bucket target_bucket object_key st).2
     = trace st ++ delta ∧
     run_of sync_stages (stage_events delta) ∧
     runs_in_order sync_stages (stage_events delta) ∧
     each_after_success sync_stages (stage_events delta) ∧
     stops_at_failure (stage_events delta)) ∧
  (∃ delta,
     trace (handle_minio_event_async minio_manager weaviate_manager
              class_name source_bucket target_bucket object_key st).2
     = trace st ++ delta ∧
     run_of async_stages (stage_events delta) ∧
     runs_in_order async_stages (stage_events delta) ∧
     each_after_success async_stages (stage_events delta) ∧
     stops_at_failure (stage_events delta)).
Proof.
  intros Hrep Hfetch Hindex.
  assert (Hall : ∀ stages evs, run_of stages evs →
            run_of stages evs ∧ runs_in_order stages evs ∧
            each_after_success stages evs ∧ stops_at_failure evs).
  { intros stages evs Hrun. repeat split; [done|..];
      eauto using run_of_in_order, run_of_each_after_success,
        run_of_stops_at_failure. }
  split.
  - assert (∃ delta,
      trace (handle_minio_event minio_client weaviate_client class_name
               source_bucket target_bucket object_key st).2
      = trace st ++ delta ∧ run_of sync_stages (stage_events delta))
      as (delta & Htr & Hrun).
    { symex; take_delta; repeat split. }
    exists delta. split; [exact Htr | by apply Hall].
  - assert (∃ delta,
      trace (handle_minio_event_async minio_manager weaviate_manager
               class_name source_bucket target_bucket object_key st).2
      = trace st ++ delta ∧ run_of async_stages (stage_events delta))
      as (delta & Htr & Hrun).
    { unfold handle_minio_event_async. unfold_monad.
      set (st1 := mkState (world st) (trace st ++ [Enter Replication])).
      destruct (Hrep source_bucket target_bucket object_key st1)
        as (d1 & Ht1 & Hs1).
      destruct (mm_replicate_object minio_manager _ _ _ st1)
        as [[[]|e1] st2]; cbn [snd] in Ht1; unfold_monad.
      + set (st3 := mkState (world st2)
                      ((trace st2 ++ [Leave Replication true])
                       ++ [Enter Fetch])).
        destruct (Hfetch target_bucket object_key st3) as (d2 & Ht2 & Hs2).
        destruct (mm_fetch_object_content_and_metadata minio_manager _ _ st3)
          as [[od|e2] st4]; cbn [snd] in Ht2; unfold_monad.
        * destruct (match od with Some a => truthy_dict a | None => false end)
            eqn:Hod; unfold_monad.
          -- set (st5 := mkState (world st4)
                           ((trace st4 ++ [Leave Fetch true])
                            ++ [Enter Indexing])).
             destruct (Hindex class_name object_key
                         {[ "processed_key" := VStr "processed_value" ]} st5)
               as (d3 & Ht3 & Hs3).
             destruct (wm_index_object weaviate_manager _ _ _ st5)
               as [[[]|e3] st6]; cbn [snd] in Ht3; unfold_monad;
               rewrite Ht3; subst st5; cbn [trace];
               rewrite Ht2; subst st3; cbn [trace];
               rewrite Ht1; subst st1; cbn [trace];
               rewrite <- ?app_assoc; eexists; (split; [reflexivity|]);
               rewrite ?stage_events_app, Hs1, Hs2, Hs3; cbn; repeat split.
          -- rewrite Ht2; subst st3; cbn [trace];
               rewrite Ht1; subst st1; cbn [trace];
               rewrite <- ?app_assoc; eexists; (split; [reflexivity|]);
               rewrite ?stage_events_app, Hs1, Hs2; cbn; repeat split.
        * rewrite Ht2; subst st3; cbn [trace];
            rewrite Ht1; subst st1; cbn [trace];
            rewrite <- ?app_assoc; eexists; (split; [reflexivity|]);
            rewrite ?stage_events_app, Hs1, Hs2; cbn; repeat split.
      + rewrite Ht1; subst st1; cbn [trace];
          rewrite <- ?app_assoc; eexists; (split; [reflexivity|]);
          rewrite ?stage_events_app, Hs1; cbn; repeat split.
      + rewrite Ht1; subst st1; cbn [trace];
          rewrite <- ?app_assoc; eexists; (split; [reflexivity|]);
          rewrite ?stage_events_app, Hs1; cbn; repeat split. }
    exists delta. split; [exact Htr | by apply Hall].
Qed.

Lemma ret_stage_silent {W A} (a : A) : stage_silent (ret a : M W A).
Proof. intros st. exists []. by rewrite app_nil_r. Qed.

Lemma coordinators_gate_their_stages_witness :
  let st := Mem.start img1_world in
  (∃ delta,
     trace (handle_minio_event (Mem.minio Mem.no_fault)
              (Mem.weaviate Mem.no_fault) "Images" "raw" "processed" "img1"
              st).2
     = trace st ++ delta ∧
     run_of sync_stages (stage_events delta) ∧
     runs_in_order sync_stages (stage_events delta) ∧
     each_after_success sync_stages (stage_events delta) ∧
     stops_at_failure (stage_events delta)) ∧
  (∃ delta,
     trace (handle_minio_event_async MinioManager.methods
              WeaviateManager.methods "Images" "raw" "processed" "img1" st).2
     = trace st ++ delta ∧
     run_of async_stages (stage_events delta) ∧
     runs_in_order async_stages (stage_events delta) ∧
     each_after_success async_stages (stage_events delta) ∧
     stops_at_failure (stage_events delta)).
Proof.
  apply (coordinators_gate_their_stages (Mem.minio Mem.no_fault)
           (Mem.weaviate Mem.no_fault) MinioManager.methods
           WeaviateManager.methods "Images" "raw" "processed" "img1"
           (Mem.start img1_world));
    intros; apply ret_stage_silent.
Defined.

(** C1 fails as stated: on an event for which every stage succeeds, the
    asynchronous coordinator calls Replication, the fetch and Indexing; the
    Metadata Commit stage (and an enrichment function) is never called. *)
Lemma async_coordinator_never_commits_metadata :
  let out :=
    handle_minio_event_async MinioManager.methods WeaviateManager.methods
      "Images" "raw" "processed" "img1" (mkState tt []) in
  out.1 = Ret tt ∧
  stage_events (trace out.2) =
    [Enter Replication; Leave Replication true;
     Enter Fetch; Leave Fetch true;
     Enter Indexing; Leave Indexing true] ∧
  printed (trace out.2) = ["Object indexed successfully."] ∧
  (MetadataCommit ∉ entered (trace out.2)) ∧
  entered (trace out.2) ≠ [Replication; Enrichment; MetadataCommit; Indexing].
Proof.
  vm_compute. repeat split; try discriminate.
  intros H. repeat (apply elem_of_cons in H as [H|H]; [discriminate|]).
  by apply elem_of_nil in H.
Qed.

(** ** Enrichment and the committed metadata *)

Ltac in_cases H :=
  repeat (apply elem_of_cons in H as [H|H]; [try discriminate H|]);
  try (by apply elem_of_nil in H).

(** X15.  The enrichment of [main.py] returns the same dictionary for
    every content, and that dictionary is what [handle_minio_event] commits
    and indexes: in every run, each [copy_object] request carries
    [{"example_key": "example_value"}] and each [create] request the record
    built from it, whatever the content and the metadata of the object. *)
Theorem commit_writes_the_placeholder_metadata {W Obj : Type}
    (minio_client : MinioClient W Obj) (weaviate_client : WeaviateClient W)
    (class_name source_bucket target_bucket object_key : string)
    (st : State W) :
  (∀ content,
     process_object_content_for_metadata_enrichment content
     = {[ "example_key" := VStr "example_value" ]}) ∧
  ∃ delta,
    trace (handle_minio_event minio_client weaviate_client class_name
             source_bucket target_bucket object_key st).2
    = trace st ++ delta ∧
    (∀ b k src md,
       CopyObject b k src md ∈ requests delta →
       md = {[ "example_key" := VStr "example_value" ]}) ∧
    (∀ payload c,
       DataObjectCreate payload c ∈ requests delta →
       payload =
         WeaviateClass.dict
           (index_data_object class_name object_key
              {[ "example_key" := VStr "example_value" ]})).
Proof.
  split; [done|].
  symex; take_delta; split; intros;
    match goal with H : _ ∈ _ |- _ => in_cases H; by simplify_eq end.
Qed.

Example placeholder_commit_ignores_existing_metadata :
  let mc := with_metadata {[ "a" := VStr "1" ]} (Mem.minio Mem.no_fault) in
  let out :=
    handle_minio_event mc (Mem.weaviate Mem.no_fault)
      "Images" "raw" "processed" "img1" (Mem.start img1_world) in
  out.1 = Ret tt ∧
  List.filter is_copy (requests (trace out.2)) =
    [CopyObject "processed" "img1" "/processed/img1" example_metadata] ∧
  example_metadata ≠ {[ "a" := VStr "1" ]}.
Proof.
  repeat split; try (vm_compute; reflexivity).
  intros H. apply (f_equal (fun m : Dict => m !! "a")) in H.
  vm_compute in H. discriminate.
Qed.

(** ** Indexing *)

Lemma index_data_object_eq (class_name object_key : string) (metadata : Dict) :
  index_data_object class_name object_key metadata =
  WeaviateClass.mk class_name
    {[ "key" := VStr object_key; "metadata" := VDict metadata ]}
    None (Some ∅).
Proof.
  unfold index_data_object, WeaviateClass.from_minio_model, WeaviateClass.new,
    MinioObject_key_metadata, dict_exclude_unset, MinioObject_model.
  cbn [MinioObject.etag MinioObject.metadata MinioObject.size MinioObject.key
       field_map set_field].
  reflexivity.
Qed.

Lemma index_payload_id (class_name object_key : string) (metadata : Dict) :
  WeaviateClass.dict (index_data_object class_name object_key metadata)
    !! "id" = Some VNone.
Proof. rewrite index_data_object_eq. unfold WeaviateClass.dict. by simplify_map_eq. Qed.

Lemma index_payload_is_record_for (class_name object_key : string)
    (metadata : Dict) :
  Mem.is_record_for object_key
    (class_name,
     WeaviateClass.dict (index_data_object class_name object_key metadata))
  = true.
Proof.
  rewrite index_data_object_eq.
  unfold Mem.is_record_for, Mem.record_key, WeaviateClass.dict.
  cbn [snd WeaviateClass.class_name WeaviateClass.properties WeaviateClass.id
       WeaviateClass.context].
  rewrite lookup_insert_ne by done. rewrite lookup_insert_eq.
  rewrite lookup_insert_eq. apply String.eqb_refl.
Qed.

(** C5, as the code has it.  The record built by the indexing stage has
    the collection as class name, no id, an empty context, and exactly two
    properties: ["key"], the object key, and ["metadata"], the whole
    metadata mapping as one nested value.  The metadata entries are not
    merged into the properties and no etag or size is declared.  For key
    ["img1"], collection ["Images"] and metadata [{"tag": "cat"}] the
    properties are [{key: "img1", metadata: {"tag": "cat"}}]. *)
Theorem index_record_nests_the_metadata (class_name object_key : string)
    (metadata : Dict) :
  let rec := index_data_object class_name object_key metadata in
  WeaviateClass.class_name rec = class_name ∧
  WeaviateClass.id rec = None ∧
  WeaviateClass.context rec = Some ∅ ∧
  WeaviateClass.properties rec =
    {[ "key" := VStr object_key; "metadata" := VDict metadata ]} ∧
  (∀ k, WeaviateClass.properties rec !! k =
        if decide (k = "key") then Some (VStr object_key)
        else if decide (k = "metadata") then Some (VDict metadata)
        else None) ∧
  WeaviateClass.properties
    (index_data_object "Images" "img1" {[ "tag" := VStr "cat" ]}) =
    {[ "key" := VStr "img1";
       "metadata" := VDict {[ "tag" := VStr "cat" ]} ]}.
Proof.
  cbv zeta. rewrite !index_data_object_eq.
  cbn [WeaviateClass.class_name WeaviateClass.id WeaviateClass.context
       WeaviateClass.properties].
  repeat split. intros k. repeat case_decide; subst; by simplify_map_eq.
Qed.

(** C5 fails as stated: for the event of the example the record sent to
    the index has no ["tag"] and no ["etag"] property; its properties are
    neither the dictionary of the example nor the union of the declared
    fields with the metadata. *)
Lemma index_record_is_not_the_flat_union :
  let metadata : Dict := {[ "tag" := VStr "cat" ]} in
  let rec := index_data_object "Images" "img1" metadata in
  let out :=
    handle_minio_event_with (Mem.minio Mem.no_fault)
      (Mem.weaviate Mem.no_fault) (fun _ => ret metadata)
      "Images" "raw" "processed" "img1" (Mem.start img1_world) in
  Mem.index (world out.2) = [("Images", WeaviateClass.dict rec)] ∧
  WeaviateClass.properties rec !! "tag" = None ∧
  WeaviateClass.properties rec !! "etag" = None ∧
  WeaviateClass.properties rec ≠
    {[ "key" := VStr "img1"; "etag" := VStr "e1"; "tag" := VStr "cat" ]} ∧
  WeaviateClass.properties rec ≠
    dict_update (dict_exclude_unset (MinioObject_key_metadata "img1" metadata))
      metadata.
Proof.
  repeat split; try (vm_compute; reflexivity);
    intros H; apply (f_equal (fun m : Dict => m !! "tag")) in H;
    vm_compute in H; discriminate.
Qed.

Lemma requests_app (l1 l2 : list Event) :
  requests (l1 ++ l2) = requests l1 ++ requests l2.
Proof. apply omap_app. Qed.

(** C3, as the code has it.  Every indexing call sends one [create]
    request, with a record whose id is [None] and which depends only on the
    arguments; no other request is made and no mapping from keys to ids is
    kept, so indexing the same key twice sends the same [create] twice.  On
    an index whose [create] adds the record it is given, each successful
    call leaves one more record for that key. *)
Theorem indexing_twice_creates_twice {W : Type}
    (weaviate_client : WeaviateClient W)
    (class_name object_key : string) (metadata : Dict) (st : State W)
    (w : Mem.World) :
  let payload :=
    WeaviateClass.dict (index_data_object class_name object_key metadata) in
  let index :=
    index_object_and_metadata_in_weaviate weaviate_client class_name
      object_key metadata in
  let index_sync :=
    index_object_sync weaviate_client class_name object_key metadata in
  let mem_index :=
    index_object_and_metadata_in_weaviate (Mem.weaviate Mem.no_fault)
      class_name object_key metadata in
  payload !! "id" = Some VNone ∧
  (∃ delta, trace (index st).2 = trace st ++ delta ∧
     requests delta = [DataObjectCreate payload class_name]) ∧
  (∃ delta, trace (index (index st).2).2 = trace st ++ delta ∧
     requests delta = [DataObjectCreate payload class_name;
                       DataObjectCreate payload class_name]) ∧
  (∃ delta, trace (index_sync (index_sync st).2).2 = trace st ++ delta ∧
     requests delta = [DataObjectCreate payload class_name;
                       DataObjectCreate payload class_name]) ∧
  (mem_index (Mem.start w)).1 = Ret true ∧
  length (Mem.records_for object_key
            (world (mem_index (mem_index (Mem.start w)).2).2))
  = 2 + length (Mem.records_for object_key w).
Proof.
  cbv zeta. split; [apply index_payload_id|].
  split; [by symex; take_delta|].
  split; [by symex; take_delta|].
  split; [by symex; take_delta|].
  split; [reflexivity|].
  unfold index_object_and_metadata_in_weaviate, try_except_Exception, bind,
    request, ret; cbn.
  unfold Mem.records_for; cbn.
  rewrite !List.filter_app, !length_app; cbn.
  rewrite index_payload_is_record_for. cbn. lia.
Qed.

(** C3 fails as stated: after indexing the key ["img1"] twice, the index
    holds two records for it. *)
Lemma reindexing_adds_a_second_record :
  let index :=
    index_object_and_metadata_in_weaviate (Mem.weaviate Mem.no_fault)
      "Images" "img1" {[ "tag" := VStr "cat" ]} in
  let index_sync :=
    index_object_sync (Mem.weaviate Mem.no_fault)
      "Images" "img1" {[ "tag" := VStr "cat" ]} in
  let first := index (Mem.start img1_world) in
  let second := index first.2 in
  first.1 = Ret true ∧ second.1 = Ret true ∧
  length (Mem.records_for "img1" (world first.2)) = 1 ∧
  length (Mem.records_for "img1" (world second.2)) = 2 ∧
  Mem.index (world second.2) =
    [("Images", WeaviateClass.dict
                  (index_data_object "Images" "img1" {[ "tag" := VStr "cat" ]}));
     ("Images", WeaviateClass.dict
                  (index_data_object "Images" "img1" {[ "tag" := VStr "cat" ]}))] ∧
  length (Mem.records_for "img1"
            (world (index_sync (index_sync (Mem.start img1_world)).2).2)) = 2.
Proof. repeat split; vm_compute; reflexivity. Qed.

(** ** Replication *)

(** C4, as the code has it.  [replicate_object] and
    [replicate_object_sync] never look at the target bucket: they get the
    source object, ask its size and, when both answered, put the object
    into the target bucket, whether or not an identical object is already
    there.  A call makes one [get_object] and at most one [put_object]; it
    returns [True] exactly when no client raised, and it has then made one
    write. *)
Theorem replication_always_writes {W Obj : Type}
    (minio_client : MinioClient W Obj)
    (source_bucket target_bucket object_key : string) (st : State W) :
  replication_outcome source_bucket target_bucket object_key st
    (replicate_object minio_client source_bucket target_bucket object_key
       st) ∧
  replication_outcome source_bucket target_bucket object_key st
    (replicate_object_sync minio_client source_bucket target_bucket
       object_key st).
Proof.
  unfold replication_outcome.
  split; symex; take_delta; (split; [eauto|]); split; try done; split; done.
Qed.

(** C4 fails as stated: when the target bucket already holds the same
    object, with the same etag, replication still writes it, and writes it
    again on every further call. *)
Lemma replication_rewrites_an_identical_object :
  let replicate :=
    replicate_object (Mem.minio Mem.no_fault) "raw" "processed" "img1" in
  let first := replicate (Mem.start img1_replicated_world) in
  let second := replicate first.2 in
  Mem.objects img1_replicated_world !! ("processed", "img1") =
    Mem.objects img1_replicated_world !! ("raw", "img1") ∧
  first.1 = Ret true ∧
  requests (trace first.2) =
    [GetObject "raw" "img1"; ObjectStat; PutObject "processed" "img1" 6] ∧
  Mem.writes (world first.2) = 1 ∧
  second.1 = Ret true ∧
  count is_put (trace second.2) = 2 ∧
  Mem.writes (world second.2) = 2 ∧
  count is_put
    (trace (replicate_object_sync (Mem.minio Mem.no_fault)
              "raw" "processed" "img1" (Mem.start img1_replicated_world)).2)
  = 1.
Proof. repeat split; vm_compute; reflexivity. Qed.

(** ** Failures *)

(** C6, as the code has it.  A run of [handle_minio_event] ends in one of
    three ways.  No stage failed: nothing is printed.  One stage caught an
    exception of its client: that stage printed one line, made of its own
    message and the text of the exception, and returned a falsy value; the
    coordinator, which only sees that value, stopped and returned [None]
    like a successful run, printing and recording nothing itself.  Or an
    exception that does not derive from [Exception] went through. *)
Theorem failures_are_printed_by_the_stage {W Obj : Type}
    (minio_client : MinioClient W Obj) (weaviate_client : WeaviateClient W)
    (class_name source_bucket target_bucket object_key : string)
    (st : State W) :
  let out :=
    handle_minio_event minio_client weaviate_client class_name source_bucket
      target_bucket object_key st in
  ∃ delta,
    trace out.2 = trace st ++ delta ∧
    ((out.1 = Ret tt ∧ failed_stages delta = [] ∧ exceptions delta = [] ∧
      printed delta = []) ∨
     (∃ s e,
        out.1 = Ret tt ∧ failed_stages delta = [s] ∧
        exceptions delta = [e] ∧ derives_Exception e = true ∧
        printed delta = [stage_message s e]) ∨
     (∃ e,
        out.1 = Raise e ∧ failed_stages delta = [] ∧
        exceptions delta = [e] ∧ derives_Exception e = false ∧
        printed delta = [])).
Proof.
  cbv zeta; symex; take_delta;
    first [ by left
          | right; left; do 2 eexists; by repeat split
          | right; right; eexists; by repeat split ].
Qed.

(** C6 fails as stated: replication failing for two different reasons
    returns the same bare [False] to the coordinator, which returns [None]
    as it does on success and adds nothing to what the stage printed; a
    failed indexing is not even looked at. *)
Lemma coordinator_sees_no_failure_reason :
  let stage fault :=
    replicate_object (Mem.minio fault) "raw" "processed" "img1"
      (Mem.start img1_world) in
  let run fault :=
    handle_minio_event (Mem.minio fault) (Mem.weaviate fault)
      "Images" "raw" "processed" "img1" (Mem.start img1_world) in
  (stage (get_fails "NoSuchKey")).1 = Ret false ∧
  (stage (get_fails "AccessDenied")).1 = Ret false ∧
  exceptions (trace (stage (get_fails "NoSuchKey")).2)
    ≠ exceptions (trace (stage (get_fails "AccessDenied")).2) ∧
  (run (get_fails "NoSuchKey")).1 = Ret tt ∧
  (run (get_fails "AccessDenied")).1 = Ret tt ∧
  (run create_fails).1 = Ret tt ∧
  (run Mem.no_fault).1 = Ret tt ∧
  printed (trace (run (get_fails "NoSuchKey")).2) =
    printed (trace (stage (get_fails "NoSuchKey")).2) ∧
  printed (trace (stage (get_fails "NoSuchKey")).2) =
    ["Error replicating object: NoSuchKey"] ∧
  failed_stages (trace (run create_fails).2) = [Indexing].
Proof. repeat split; try (vm_compute; reflexivity). vm_compute. discriminate. Qed.

(** ** Metadata commit *)

(** C7, as the code has it.  [update_object_metadata_in_minio] makes one
    [copy_object] request and nothing else.  During one event the
    coordinator makes at most one [copy_object] request; when the Metadata
    Commit stage fails, whatever the exception, that request is the last
    one of the run: the metadata is not read again and the commit is not
    retried. *)
Theorem metadata_commit_is_attempted_once {W Obj : Type}
    (minio_client : MinioClient W Obj) (weaviate_client : WeaviateClient W)
    (class_name source_bucket target_bucket object_key : string)
    (metadata : Dict) (st : State W) :
  let source := "/" +:+ target_bucket +:+ "/" +:+ object_key in
  (∃ delta,
     trace (update_object_metadata_in_minio minio_client target_bucket
              object_key metadata st).2
     = trace st ++ delta ∧
     requests delta = [CopyObject target_bucket object_key source metadata]) ∧
  (∃ delta,
     trace (handle_minio_event minio_client weaviate_client class_name
              source_bucket target_bucket object_key st).2
     = trace st ++ delta ∧
     (count is_copy delta ≤ 1)%nat ∧
     (failed_stages delta = [MetadataCommit] →
      count is_copy delta = 1 ∧
      last (requests delta) =
        Some (CopyObject target_bucket object_key source example_metadata))).
Proof.
  cbv zeta. split.
  - by symex; take_delta.
  - symex; take_delta; (split; [unfold count; cbn; lia|]);
      intros Hfail; by simplify_eq.
Qed.

Lemma metadata_commit_is_attempted_once_witness :
  let mc := Mem.minio copy_conflicts in
  let wc := Mem.weaviate copy_conflicts in
  let st := Mem.start img1_world in
  (∃ delta,
     trace (update_object_metadata_in_minio mc "processed" "img1"
              example_metadata st).2
     = trace st ++ delta ∧
     requests delta =
       [CopyObject "processed" "img1"
          ("/" +:+ "processed" +:+ "/" +:+ "img1") example_metadata]) ∧
  (∃ delta,
     trace (handle_minio_event mc wc "Images" "raw" "processed" "img1" st).2
     = trace st ++ delta ∧
     (count is_copy delta ≤ 1)%nat ∧
     (failed_stages delta = [MetadataCommit] →
      count is_copy delta = 1 ∧
      last (requests delta) =
        Some (CopyObject "processed" "img1"
                ("/" +:+ "processed" +:+ "/" +:+ "img1") example_metadata))).
Proof.
  exact (metadata_commit_is_attempted_once (Mem.minio copy_conflicts)
           (Mem.weaviate copy_conflicts) "Images" "raw" "processed" "img1"
           example_metadata (Mem.start img1_world)).
Defined.

(** C7 fails as stated: when the store rejects the commit with a
    precondition failure, the coordinator stops after that single
    [copy_object] request; it neither reads the object again nor repeats
    the commit. *)
Lemma commit_conflict_is_not_retried :
  let out :=
    handle_minio_event (Mem.minio copy_conflicts)
      (Mem.weaviate copy_conflicts) "Images" "raw" "processed" "img1"
      (Mem.start img1_world) in
  out.1 = Ret tt ∧
  requests (trace out.2) =
    [GetObject "raw" "img1"; ObjectStat; PutObject "processed" "img1" 6;
     GetObject "processed" "img1"; StatObject "processed" "img1"; ObjectRead;
     CopyObject "processed" "img1" "/processed/img1" example_metadata] ∧
  exceptions (trace out.2) = [mkExc true "PreconditionFailed"] ∧
  count is_copy (trace out.2) = 1 ∧
  failed_stages (trace out.2) = [MetadataCommit] ∧
  last (trace out.2) = Some (Leave MetadataCommit false).
Proof. repeat split; vm_compute; reflexivity. Qed.

(** ** Client exceptions *)

Ltac status_step :=
  match goal with
  | |- context [if (?x =? ?y)%Z then _ else _] => destruct (x =? y)%Z eqn:?
  end.

(** C8, as the code has it.  Each function that talks to a client wraps
    its body in [try: ... except Exception].  Whatever the clients answer,
    a call ends in one of two ways.  It returns: every exception a client
    raised derives from [Exception] and was caught inside the function,
    and the value returned is then [False], or [None] for the fetch.  Or
    an exception leaves the function: it is one that a client raised and
    that does not derive from [Exception], which [except Exception] does
    not catch. *)
Theorem stage_functions_catch_only_Exception {W Obj W' Resp : Type}
    (minio_client : MinioClient W Obj) (weaviate_client : WeaviateClient W)
    (session : ClientSession W' Resp)
    (minio_endpoint weaviate_endpoint : string)
    (class_name source_bucket target_bucket object_key : string)
    (metadata : Dict) (st : State W) (st' : State W') :
  catches_only_Exception false
    (replicate_object minio_client source_bucket target_bucket object_key)
    st ∧
  catches_only_Exception None
    (fetch_object_content_and_metadata minio_client target_bucket object_key)
    st ∧
  catches_only_Exception false
    (update_object_metadata_in_minio minio_client target_bucket object_key
       metadata) st ∧
  catches_only_Exception false
    (index_object_and_metadata_in_weaviate weaviate_client class_name
       object_key metadata) st ∧
  catches_only_Exception false
    (replicate_object_sync minio_client source_bucket target_bucket
       object_key) st ∧
  catches_only_Exception false
    (index_object_sync weaviate_client class_name object_key metadata) st ∧
  catches_only_Exception false
    (replicate_object_async minio_endpoint session source_bucket
       target_bucket object_key) st' ∧
  catches_only_Exception false
    (index_object_async weaviate_endpoint session class_name object_key
       metadata) st'.
Proof.
  unfold catches_only_Exception.
  repeat split;
    unfold_main; unfold_monad;
    repeat (first [ oracle_step | status_step ]; unfold_monad);
    rewrite <- ?app_assoc; eexists; (split; [reflexivity|]); cbn;
    first [ split; [ repeat constructor
                   | intros Hne; first [reflexivity | by destruct Hne] ]
          | by split ].
Qed.

(** C8 fails as stated: a client call that is interrupted, or an awaited
    request whose task is cancelled, raises an exception that does not
    derive from [Exception]; the stage functions do not catch it and it
    reaches their caller. *)
Lemma interrupts_escape_the_stage_functions :
  let mc := Mem.minio interrupted in
  let wc := Mem.weaviate interrupted in
  let st := Mem.start img1_world in
  let md : Dict := {[ "tag" := VStr "cat" ]} in
  let cancelled := Raise (mkExc false "CancelledError") in
  (replicate_object mc "raw" "processed" "img1" st).1
    = Raise KeyboardInterrupt ∧
  (fetch_object_content_and_metadata mc "processed" "img1" st).1
    = Raise KeyboardInterrupt ∧
  (update_object_metadata_in_minio mc "processed" "img1" md st).1
    = Raise KeyboardInterrupt ∧
  (index_object_and_metadata_in_weaviate wc "Images" "img1" md st).1
    = Raise KeyboardInterrupt ∧
  (replicate_object_sync mc "raw" "processed" "img1" st).1
    = Raise KeyboardInterrupt ∧
  (index_object_sync wc "Images" "img1" md st).1 = Raise KeyboardInterrupt ∧
  (replicate_object_async "http://minio.local" cancelled_session
     "raw" "processed" "img1" (mkState tt [])).1 = cancelled ∧
  (index_object_async "http://weaviate.local" cancelled_session
     "Images" "img1" md (mkState tt [])).1 = cancelled ∧
  derives_Exception KeyboardInterrupt = false.
Proof. repeat split; vm_compute; reflexivity. Qed.

(** C10.  When the [GET] of the source object answers with a status other
    than 200, [replicate_object_async] returns [False] and the [GET] is the
    only request it has made: no [PUT] is sent, and the world is the one
    the [GET] left. *)
Theorem replicate_object_async_without_200_makes_no_put {W Resp : Type}
    (minio_endpoint : string) (session : ClientSession W Resp)
    (source_bucket target_bucket object_key : string) (st : State W)
    (response : Resp) (w : W) :
  let object_url :=
    minio_endpoint +:+ "/" +:+ source_bucket +:+ "/" +:+ object_key in
  session_get session object_url (world st) = (Ret response, w) →
  response_status session response ≠ 200%Z →
  replicate_object_async minio_endpoint session source_bucket target_bucket
    object_key st
  = (Ret false, mkState w (trace st ++ [Call (SessionGet object_url)])).
Proof.
  cbv zeta. intros Hget Hstatus.
  unfold replicate_object_async. unfold_monad. rewrite Hget.
  apply Z.eqb_neq in Hstatus. by rewrite Hstatus.
Qed.

Lemma replicate_object_async_without_200_makes_no_put_witness :
  replicate_object_async "http://minio.local" Http.session
    "source-bucket" "target-bucket" "object-key" (mkState ∅ [])
  = (Ret false,
     mkState ∅
       [Call (SessionGet "http://minio.local/source-bucket/object-key")]).
Proof.
  apply (replicate_object_async_without_200_makes_no_put
           "http://minio.local" Http.session
           "source-bucket" "target-bucket" "object-key" (mkState ∅ [])
           (404%Z, "") ∅).
  - reflexivity.
  - cbn. lia.
Defined.

(** * Further properties of the scripts *)

Ltac in_list := apply list_elem_of_In; cbn; tauto.

Ltac symex_async :=
  unfold main; unfold_main; unfold_monad;
  repeat (first [ oracle_step | status_step ]; unfold_monad).

Lemma printed_app (l1 l2 : list Event) :
  printed (l1 ++ l2) = printed l1 ++ printed l2.
Proof. apply omap_app. Qed.

Lemma exceptions_app (l1 l2 : list Event) :
  exceptions (l1 ++ l2) = exceptions l1 ++ exceptions l2.
Proof. apply omap_app. Qed.

Lemma failed_stages_app (l1 l2 : list Event) :
  failed_stages (l1 ++ l2) = failed_stages l1 ++ failed_stages l2.
Proof. apply omap_app. Qed.

Lemma failed_stages_silent (l : list Event) :
  stage_events l = [] → failed_stages l = [].
Proof.
  induction l as [|[] l IH]; cbn; intros Hl; try discriminate; auto.
Qed.

(** ** More on the models *)

(** X1.  [from_minio_model] on any model class ([MinioObject],
    [MinioFile], [MinioBucket]): passing no [additional_props] and passing
    an empty dictionary give the same record; the keys of the properties
    are the explicitly set fields of the model together with the keys of
    [additional_props]; a key of [additional_props] has its value, and any
    other key has the value of the model. *)

Theorem from_minio_model_any_model {T : Type} `{BaseModel T}
    (c : string) (m : T) (d : Dict) :
  let w := WeaviateClass.from_minio_model c m (Some d) in
  WeaviateClass.from_minio_model c m None
    = WeaviateClass.from_minio_model c m (Some ∅) ∧
  WeaviateClass.class_name w = c ∧
  WeaviateClass.id w = None ∧
  WeaviateClass.context w = Some ∅ ∧
  dom (WeaviateClass.properties w) = dom (dict_exclude_unset m) ∪ dom d ∧
  (∀ k v, d !! k = Some v → WeaviateClass.properties w !! k = Some v) ∧
  (∀ k, d !! k = None →
        WeaviateClass.properties w !! k = dict_exclude_unset m !! k).
Proof.
  assert (Hprops : WeaviateClass.properties
                     (WeaviateClass.from_minio_model c m (Some d)) =
                   dict_update (dict_exclude_unset m) d).
  { unfold WeaviateClass.from_minio_model, WeaviateClass.new.
    cbn [WeaviateClass.properties].
    destruct (truthy d) eqn:Ht; [reflexivity|].
    apply truthy_dict_false in Ht. subst d. by rewrite dict_update_empty. }
  cbv zeta. rewrite Hprops. repeat split.
  - unfold dict_update. rewrite dom_union_L. apply (comm_L (∪)).
  - intros k v Hk. by rewrite dict_update_lookup, Hk.
  - intros k Hk. by rewrite dict_update_lookup, Hk.
Qed.


Lemma set_field_lookup_ne (name k : string) (f : Field PyVal) (d : Dict) :
  k ≠ name → set_field name f d !! k = d !! k.
Proof. intros Hne. destruct f; cbn; [done|]. by rewrite lookup_insert_ne. Qed.

(** X2.  A [MinioFile] is a [MinioObject] with two more optional fields:
    its [dict(exclude_unset=True)] contains every entry of the dictionary
    of the object part, always has the key, agrees with the object part
    outside [content_type] and [last_modified], and has a [content_type]
    entry exactly when that field was given. *)

Theorem MinioFile_dict_extends_MinioObject_dict (f : MinioFile.t) :
  dict_exclude_unset (MinioFile.base f) ⊆ dict_exclude_unset f ∧
  dict_exclude_unset f !! "key"
    = Some (VStr (MinioObject.key (MinioFile.base f))) ∧
  (∀ k, k ≠ "content_type" → k ≠ "last_modified" →
        dict_exclude_unset f !! k = dict_exclude_unset (MinioFile.base f) !! k) ∧
  (is_Some (dict_exclude_unset f !! "content_type") ↔
   MinioFile.content_type f ≠ NotGiven).
Proof.
  assert (Hother : ∀ k, k ≠ "content_type" → k ≠ "last_modified" →
            dict_exclude_unset f !! k
            = dict_exclude_unset (MinioFile.base f) !! k).
  { intros k H1 H2. unfold dict_exclude_unset at 1, MinioFile_model.
    by rewrite !set_field_lookup_ne. }
  split; [|split; [|split; [exact Hother|]]].
  - apply map_subseteq_spec. intros k v Hk.
    rewrite Hother; [done| |]; intros ->;
      rewrite MinioObject_dict_lookup in Hk;
      repeat case_decide; simplify_eq.
  - rewrite Hother by done. rewrite MinioObject_dict_lookup.
    repeat case_decide; simplify_eq. done.
  - unfold dict_exclude_unset at 1, MinioFile_model.
    rewrite set_field_lookup_ne by done.
    destruct (MinioFile.content_type f) as [|v]; cbn.
    + rewrite MinioObject_dict_lookup. repeat case_decide; simplify_eq.
      split; [by intros [? [=]]|done].
    + rewrite lookup_insert_eq. split; [done|by eexists].
Qed.


Lemma Some_VDict_inj (p q : Dict) : Some (VDict p) = Some (VDict q) → p = q.
Proof. intros H. by injection H. Qed.

Lemma Some_VStr_inj (a b : string) : Some (VStr a) = Some (VStr b) → a = b.
Proof. intros H. by injection H. Qed.

(** X3.  The payload an indexing function sends determines the class
    name, the object key and the metadata it was built from: two calls
    that send the same payload were given the same three arguments. *)

Theorem index_payload_injective (c k c' k' : string) (m m' : Dict) :
  WeaviateClass.dict (index_data_object c k m)
    = WeaviateClass.dict (index_data_object c' k' m') →
  c = c' ∧ k = k' ∧ m = m'.
Proof.
  rewrite !index_data_object_eq. unfold WeaviateClass.dict.
  cbn [WeaviateClass.class_name WeaviateClass.properties WeaviateClass.id
       WeaviateClass.context].
  intros Heq.
  pose proof (f_equal (fun d : Dict => d !! "class_name") Heq) as Hc.
  pose proof (f_equal (fun d : Dict => d !! "properties") Heq) as Hp.
  cbn beta in Hc, Hp.
  rewrite !lookup_insert_eq in Hc.
  rewrite !(lookup_insert_ne _ "class_name" "properties") in Hp by done.
  rewrite !lookup_insert_eq in Hp.
  apply Some_VStr_inj in Hc as ->. apply Some_VDict_inj in Hp.
  pose proof (f_equal (fun d : Dict => d !! "key") Hp) as Hk.
  pose proof (f_equal (fun d : Dict => d !! "metadata") Hp) as Hm.
  cbn beta in Hk, Hm.
  rewrite !lookup_insert_eq in Hk.
  rewrite !(lookup_insert_ne _ "key" "metadata") in Hm by done.
  rewrite !lookup_singleton_eq in Hm.
  apply Some_VStr_inj in Hk as ->. apply Some_VDict_inj in Hm as ->. done.
Qed.


Lemma index_payload_injective_witness :
  "Images" = "Images" ∧ "img1" = "img1" ∧
  ({[ "tag" := VStr "cat" ]} : Dict) = {[ "tag" := VStr "cat" ]}.
Proof.
  apply (index_payload_injective "Images" "img1" "Images" "img1"
           {[ "tag" := VStr "cat" ]} {[ "tag" := VStr "cat" ]}).
  reflexivity.
Defined.

(** ** The stage functions of main.py *)

(** X4.  [fetch_object_content_and_metadata] only reads: its requests are
    a prefix of [get_object], [stat_object], [read] on the bucket and key
    it was given.  It returns a dictionary exactly when no client raised;
    that dictionary has the two keys ["content"] and ["metadata"] and is
    truthy, so the coordinator's [if object_data:] only tests for [None].
    When it returns [None], one exception was caught and one line
    printed. *)

Theorem fetch_reads_and_never_writes {W Obj : Type}
    (minio_client : MinioClient W Obj) (bucket object_key : string)
    (st : State W) :
  let out := fetch_object_content_and_metadata minio_client bucket object_key
               st in
  ∃ delta,
    trace out.2 = trace st ++ delta ∧
    requests delta `prefix_of`
      [GetObject bucket object_key; StatObject bucket object_key;
       ObjectRead] ∧
    (exceptions delta = [] ↔
     ∃ content metadata,
       out.1 = Ret (Some {[ "content" := VBytes content;
                            "metadata" := VDict metadata ]})) ∧
    (∀ d, out.1 = Ret (Some d) →
       truthy d = true ∧
       dom d = {[ "content"; "metadata" ]} ∧
       requests delta =
         [GetObject bucket object_key; StatObject bucket object_key;
          ObjectRead]) ∧
    (out.1 = Ret None →
     ∃ e, exceptions delta = [e] ∧ derives_Exception e = true ∧
          printed delta = [stage_message Fetch e]).
Proof.
  cbv zeta; symex; take_delta;
    (split; [by eexists|]);
    (split; [split; [try done; intros _; by do 2 eexists
                    | try done; by intros (? & ? & ?)]|]);
    (split; [intros d Hd; simplify_eq; repeat split;
             first [ apply fetched_truthy
                   | by rewrite dom_insert_L, dom_singleton_L ]|]);
    intros Hnone; simplify_eq; by eexists.
Qed.


(** X5.  When [get_object] on the source raises an exception deriving
    from [Exception] (a missing object, for instance), [replicate_object]
    prints one line and returns [False]; the [get_object] is the only
    request made: nothing is put into the target bucket. *)

Theorem replicate_object_failed_read_makes_no_put {W Obj : Type}
    (minio_client : MinioClient W Obj)
    (source_bucket target_bucket object_key : string) (st : State W)
    (e : Exc) (w : W) :
  get_object minio_client source_bucket object_key (world st) = (Raise e, w) →
  derives_Exception e = true →
  replicate_object minio_client source_bucket target_bucket object_key st
  = (Ret false,
     mkState w
       (trace st ++
        [Call (GetObject source_bucket object_key); Raised e;
         Print ("Error replicating object: " +:+ text e)])).
Proof.
  intros Hget He. unfold replicate_object. unfold_monad.
  rewrite Hget. unfold_monad. rewrite He. unfold_monad.
  by rewrite <- !app_assoc.
Qed.

Lemma replicate_object_failed_read_makes_no_put_witness :
  let w := Mem.mkWorld ∅ [] 0 in
  replicate_object (Mem.minio Mem.no_fault) "raw" "processed" "img1"
    (Mem.start w)
  = (Ret false,
     mkState w
       [Call (GetObject "raw" "img1"); Raised Mem.NoSuchKey;
        Print "Error replicating object: NoSuchKey"]).
Proof.
  apply (replicate_object_failed_read_makes_no_put (Mem.minio Mem.no_fault)
           "raw" "processed" "img1" (Mem.start (Mem.mkWorld ∅ [] 0))
           Mem.NoSuchKey (Mem.mkWorld ∅ [] 0)); reflexivity.
Defined.


(** X6.  The methods of [MinioWeaviateManager] do what the functions of
    [main.py] do: [replicate_object_sync] is [replicate_object], and
    [index_object_sync] returns the same value, leaves the same world,
    makes the same requests and catches the same exceptions as
    [index_object_and_metadata_in_weaviate], printing as many lines (only
    the wording of the error line differs). *)

Theorem manager_methods_match_the_script {W Obj : Type}
    (minio_client : MinioClient W Obj) (weaviate_client : WeaviateClient W)
    (class_name source_bucket target_bucket object_key : string)
    (metadata : Dict) (st : State W) :
  let by_method :=
    index_object_sync weaviate_client class_name object_key metadata st in
  let by_function :=
    index_object_and_metadata_in_weaviate weaviate_client class_name
      object_key metadata st in
  replicate_object_sync minio_client source_bucket target_bucket object_key st
  = replicate_object minio_client source_bucket target_bucket object_key st ∧
  by_method.1 = by_function.1 ∧
  world by_method.2 = world by_function.2 ∧
  requests (trace by_method.2) = requests (trace by_function.2) ∧
  exceptions (trace by_method.2) = exceptions (trace by_function.2) ∧
  length (printed (trace by_method.2))
  = length (printed (trace by_function.2)).
Proof.
  cbv zeta. split; [reflexivity|].
  symex; cbn [fst snd world trace];
    rewrite ?requests_app, ?exceptions_app, ?printed_app, ?length_app;
    repeat split.
Qed.


(** ** The synchronous coordinator *)

(** X7.  [handle_minio_event] goes through whenever the clients answer:
    if no client raises, it returns [None] after calling all five stages,
    prints nothing, and has made the eight requests of a complete run in
    order.  Conversely, Indexing leaves with [True] only in a run where no
    client raised. *)

Theorem handle_minio_event_completes_when_clients_answer {W Obj : Type}
    (minio_client : MinioClient W Obj) (weaviate_client : WeaviateClient W)
    (class_name source_bucket target_bucket object_key : string)
    (st : State W) :
  let out :=
    handle_minio_event minio_client weaviate_client class_name source_bucket
      target_bucket object_key st in
  ∃ delta,
    trace out.2 = trace st ++ delta ∧
    (exceptions delta = [] →
     out.1 = Ret tt ∧ entered delta = sync_stages ∧
     failed_stages delta = [] ∧ printed delta = [] ∧
     ∃ n, requests delta =
            complete_run_requests class_name source_bucket target_bucket
              object_key n) ∧
    (Leave Indexing true ∈ delta → exceptions delta = []) ∧
    (entered delta = sync_stages ∧ failed_stages delta = [] ∧ out.1 = Ret tt →
     exceptions delta = []).
Proof.
  cbv zeta; symex; take_delta;
    (split; [intros Hexc; try discriminate Hexc; repeat split; by eexists|]);
    (split; [intros Hin; first [reflexivity | in_cases Hin]|]);
    intros (Hent & Hfail & Hout); first [reflexivity | discriminate].
Qed.


(** X8.  [handle_minio_event] begins by getting the object from the
    source bucket, and when the two buckets differ this is the only request
    of the run that names the source bucket: nothing is put, copied or
    stat-ed there.  In every run, each [stat_object], [put_object] and
    [copy_object] names the target bucket and the object key, the copy has
    that same object as its source, each [get_object] names the object key
    in the source or in the target bucket, and each record is created in
    the class given.  (When the two buckets are the same bucket, the put
    and the copy therefore write the source object.) *)
Theorem handle_minio_event_reads_the_source_once {W Obj : Type}
    (minio_client : MinioClient W Obj) (weaviate_client : WeaviateClient W)
    (class_name source_bucket target_bucket object_key : string)
    (st : State W) :
  ∃ delta,
    trace (handle_minio_event minio_client weaviate_client class_name
             source_bucket target_bucket object_key st).2
    = trace st ++ delta ∧
    head (requests delta) = Some (GetObject source_bucket object_key) ∧
    (source_bucket ≠ target_bucket →
     List.filter (names_bucket source_bucket) (requests delta)
     = [GetObject source_bucket object_key]) ∧
    (∀ b k, GetObject b k ∈ requests delta →
       k = object_key ∧ (b = source_bucket ∨ b = target_bucket)) ∧
    (∀ b k, StatObject b k ∈ requests delta →
       b = target_bucket ∧ k = object_key) ∧
    (∀ b k n, PutObject b k n ∈ requests delta →
       b = target_bucket ∧ k = object_key) ∧
    (∀ b k src md, CopyObject b k src md ∈ requests delta →
       b = target_bucket ∧ k = object_key ∧
       src = "/" +:+ target_bucket +:+ "/" +:+ object_key) ∧
    (∀ payload c, DataObjectCreate payload c ∈ requests delta →
       c = class_name).
Proof.
  symex; take_delta; (split; [reflexivity|]);
    (split; [intros Hne; apply not_eq_sym, String.eqb_neq in Hne;
             by rewrite ?String.eqb_refl, ?Hne|]);
    repeat split; intros;
    match goal with H : _ ∈ _ |- _ => in_cases H; simplify_eq; auto end.
Qed.

Lemma handle_minio_event_reads_the_source_once_witness :
  ∃ delta,
    trace (handle_minio_event (Mem.minio Mem.no_fault)
             (Mem.weaviate Mem.no_fault) "Images" "raw" "processed" "img1"
             (Mem.start img1_world)).2
    = trace (Mem.start img1_world) ++ delta ∧
    List.filter (names_bucket "raw") (requests delta)
    = [GetObject "raw" "img1"].
Proof.
  destruct (handle_minio_event_reads_the_source_once
              (Mem.minio Mem.no_fault) (Mem.weaviate Mem.no_fault)
              "Images" "raw" "processed" "img1" (Mem.start img1_world))
    as (delta & Htr & _ & Hsrc & _).
  exists delta. split; [exact Htr|]. apply Hsrc. discriminate.
Defined.

Example same_bucket_run_writes_the_source_object :
  let out :=
    handle_minio_event (Mem.minio Mem.no_fault) (Mem.weaviate Mem.no_fault)
      "Images" "raw" "raw" "img1" (Mem.start img1_world) in
  List.filter (names_bucket "raw") (requests (trace out.2))
  = [GetObject "raw" "img1"; PutObject "raw" "img1" 6; GetObject "raw" "img1";
     StatObject "raw" "img1";
     CopyObject "raw" "img1" "/raw/img1" example_metadata] ∧
  Mem.writes (world out.2) = 2.
Proof. split; vm_compute; reflexivity. Qed.



(** X10.  On the in-memory store, for any world that has the source
    object: [handle_minio_event] returns with no stage failed; the target
    object then has the bytes and etag of the source object and the
    placeholder metadata; no other object has changed; one record for the
    object has been added to the index; and the store has been written
    twice (the put and the copy). *)

Theorem pipeline_on_the_in_memory_store
    (class_name source_bucket target_bucket object_key : string)
    (w : Mem.World) (o : Mem.StoredObject) :
  Mem.objects w !! (source_bucket, object_key) = Some o →
  let out :=
    handle_minio_event (Mem.minio Mem.no_fault) (Mem.weaviate Mem.no_fault)
      class_name source_bucket target_bucket object_key (Mem.start w) in
  out.1 = Ret tt ∧
  failed_stages (trace out.2) = [] ∧
  Mem.objects (world out.2) !! (target_bucket, object_key)
    = Some (Mem.mkObject (Mem.data o) example_metadata (Mem.etag o)) ∧
  (∀ b k, (b, k) ≠ (target_bucket, object_key) →
     Mem.objects (world out.2) !! (b, k) = Mem.objects w !! (b, k)) ∧
  Mem.index (world out.2) =
    Mem.index w ++
    [(class_name,
      WeaviateClass.dict
        (index_data_object class_name object_key example_metadata))] ∧
  Mem.writes (world out.2) = 2 + Mem.writes w.
Proof.
  intros Hsrc. cbv zeta.
  unfold_main. unfold_monad. cbn [Mem.minio get_object object_stat_st_size
    object_read put_object stat_object_metadata copy_object Mem.weaviate
    data_object_create Mem.guarded Mem.no_fault Mem.start world trace
    Mem.objects Mem.index Mem.writes].
  rewrite Hsrc.
  repeat progress
    (unfold_monad;
     cbn [Mem.objects Mem.index Mem.writes Mem.data Mem.etag
          Mem.user_metadata world trace fst snd];
     rewrite ?lookup_insert_eq, ?fetched_truthy, ?fetched_content).
  repeat split.
  intros b k Hne. by rewrite !lookup_insert_ne.
Qed.


Lemma pipeline_on_the_in_memory_store_witness :
  let out :=
    handle_minio_event (Mem.minio Mem.no_fault) (Mem.weaviate Mem.no_fault)
      "Images" "raw" "processed" "img1" (Mem.start img1_world) in
  out.1 = Ret tt ∧
  failed_stages (trace out.2) = [] ∧
  Mem.objects (world out.2) !! ("processed", "img1")
    = Some (Mem.mkObject "pixels" example_metadata "e1") ∧
  (∀ b k, (b, k) ≠ ("processed", "img1") →
     Mem.objects (world out.2) !! (b, k) = Mem.objects img1_world !! (b, k)) ∧
  Mem.index (world out.2) =
    Mem.index img1_world ++
    [("Images",
      WeaviateClass.dict
        (index_data_object "Images" "img1" example_metadata))] ∧
  Mem.writes (world out.2) = 2 + Mem.writes img1_world.
Proof.
  apply (pipeline_on_the_in_memory_store "Images" "raw" "processed" "img1"
           img1_world (Mem.mkObject "pixels" ∅ "e1")).
  reflexivity.
Defined.

(** ** The asynchronous coordinator *)

Ltac async_done Ht1 Ht2 Ht3 :=
  rewrite ?Ht3; cbn [trace]; rewrite ?Ht2; cbn [trace];
  rewrite ?Ht1; cbn [trace];
  rewrite <- ?app_assoc; eexists; (split; [reflexivity|]);
  rewrite ?printed_app, ?failed_stages_app.

(** X11.  With managers whose methods print nothing themselves,
    [handle_minio_event_async] prints exactly one line when it returns: the
    success line when no stage returned a falsy result, and otherwise the
    line of the one stage that did (replication, fetch or indexing).  It
    prints nothing when an exception of a manager goes through. *)

Theorem handle_minio_event_async_names_the_failed_stage {W : Type}
    (minio_manager : MinioManagerMethods W)
    (weaviate_manager : WeaviateManagerMethods W)
    (class_name source_bucket target_bucket object_key : string)
    (st : State W) :
  (∀ a b c, quiet (mm_replicate_object minio_manager a b c)) →
  (∀ a b, quiet (mm_fetch_object_content_and_metadata minio_manager a b)) →
  (∀ a b c, quiet (wm_index_object weaviate_manager a b c)) →
  let out :=
    handle_minio_event_async minio_manager weaviate_manager class_name
      source_bucket target_bucket object_key st in
  ∃ delta,
    trace out.2 = trace st ++ delta ∧
    (∀ e, out.1 = Raise e → printed delta = []) ∧
    (out.1 = Ret tt →
     (length (failed_stages delta) ≤ 1)%nat ∧
     printed delta = [async_message (failed_stages delta)]).
Proof.
  intros Hrep Hfetch Hindex. cbv zeta.
  unfold handle_minio_event_async. unfold_monad.
  set (st1 := mkState (world st) (trace st ++ [Enter Replication])).
  destruct (Hrep source_bucket target_bucket object_key st1)
    as (d1 & Ht1 & Hs1 & Hp1).
  apply failed_stages_silent in Hs1.
  destruct (mm_replicate_object minio_manager _ _ _ st1)
    as [[[]|e1] st2]; cbn [snd] in Ht1; unfold_monad; subst st1.
  - set (st3 := mkState (world st2)
                  ((trace st2 ++ [Leave Replication true]) ++ [Enter Fetch])).
    destruct (Hfetch target_bucket object_key st3) as (d2 & Ht2 & Hs2 & Hp2).
    apply failed_stages_silent in Hs2.
    destruct (mm_fetch_object_content_and_metadata minio_manager _ _ st3)
      as [[od|e2] st4]; cbn [snd] in Ht2; unfold_monad; subst st3.
    + destruct (match od with Some a => truthy_dict a | None => false end)
        eqn:Hod; unfold_monad.
      * set (st5 := mkState (world st4)
                      ((trace st4 ++ [Leave Fetch true]) ++ [Enter Indexing])).
        destruct (Hindex class_name object_key
                    {[ "processed_key" := VStr "processed_value" ]} st5)
          as (d3 & Ht3 & Hs3 & Hp3).
        apply failed_stages_silent in Hs3.
        destruct (wm_index_object weaviate_manager _ _ _ st5)
          as [[[]|e3] st6]; cbn [snd] in Ht3; unfold_monad; subst st5;
          async_done Ht1 Ht2 Ht3; rewrite Hs1, Hs2, Hs3, Hp1, Hp2, Hp3;
          cbn; (split; [by intros ? [= ]|]); first [by intros [= ] | intros _; split; [lia|reflexivity]].
      * async_done Ht1 Ht2 Ht2; rewrite Hs1, Hs2, Hp1, Hp2; cbn.
        split; [by intros ? [= ]|intros _; split; [lia|reflexivity]].
    + async_done Ht1 Ht2 Ht2; rewrite Hs1, Hs2, Hp1, Hp2; cbn.
      split; [done|by intros [= ]].
  - async_done Ht1 Ht1 Ht1; rewrite Hs1, Hp1; cbn.
    split; [by intros ? [= ]|intros _; split; [lia|reflexivity]].
  - async_done Ht1 Ht1 Ht1; rewrite Hs1, Hp1; cbn.
    split; [done|by intros [= ]].
Qed.

Lemma ret_quiet {W A} (a : A) : quiet (ret a : M W A).
Proof. intros st. exists []. by rewrite app_nil_r. Qed.

Lemma handle_minio_event_async_names_the_failed_stage_witness :
  let out :=
    handle_minio_event_async MinioManager.methods WeaviateManager.methods
      "Images" "raw" "processed" "img1" (Mem.start img1_world) in
  ∃ delta,
    trace out.2 = trace (Mem.start img1_world) ++ delta ∧
    (∀ e, out.1 = Raise e → printed delta = []) ∧
    (out.1 = Ret tt →
     (length (failed_stages delta) ≤ 1)%nat ∧
     printed delta = [async_message (failed_stages delta)]).
Proof.
  apply (handle_minio_event_async_names_the_failed_stage
           MinioManager.methods WeaviateManager.methods
           "Images" "raw" "processed" "img1" (Mem.start img1_world));
    intros; apply ret_quiet.
Defined.


(** ** The aiohttp manager *)

(** X12.  When the [GET] answers 200, the body is read and the [PUT] is
    answered, [replicate_object_async] has sent to the target URL exactly
    the bytes it read from the source URL, made these three requests and
    no other, and returns whether the [PUT] answered 200. *)

Theorem replicate_object_async_puts_what_it_read {W Resp : Type}
    (minio_endpoint : string) (session : ClientSession W Resp)
    (source_bucket target_bucket object_key : string) (st : State W)
    (response put_response : Resp) (data : string) (w1 w2 w3 : W) :
  let object_url :=
    minio_endpoint +:+ "/" +:+ source_bucket +:+ "/" +:+ object_key in
  let target_url :=
    minio_endpoint +:+ "/" +:+ target_bucket +:+ "/" +:+ object_key in
  session_get session object_url (world st) = (Ret response, w1) →
  response_status session response = 200%Z →
  response_read session response w1 = (Ret data, w2) →
  session_put session target_url data w2 = (Ret put_response, w3) →
  replicate_object_async minio_endpoint session source_bucket target_bucket
    object_key st
  = (Ret (response_status session put_response =? 200)%Z,
     mkState w3
       (trace st ++
        [Call (SessionGet object_url); Call ResponseRead;
         Call (SessionPut target_url data)])).
Proof.
  cbv zeta. intros Hget Hstatus Hread Hput.
  unfold replicate_object_async. unfold_monad.
  rewrite Hget. unfold_monad. rewrite Hstatus, Z.eqb_refl. unfold_monad.
  rewrite Hread. unfold_monad. rewrite Hput. unfold_monad.
  by rewrite <- !app_assoc.
Qed.

Lemma replicate_object_async_puts_what_it_read_witness :
  let w : Http.World := {[ "http://minio.local/raw/img1" := "pixels" ]} in
  let out :=
    replicate_object_async "http://minio.local" Http.session
      "raw" "processed" "img1" (mkState w []) in
  out.1 = Ret true ∧
  world out.2 !! "http://minio.local/processed/img1" = Some "pixels" ∧
  requests (trace out.2) =
    [SessionGet "http://minio.local/raw/img1"; ResponseRead;
     SessionPut "http://minio.local/processed/img1" "pixels"].
Proof.
  cbv zeta.
  rewrite (replicate_object_async_puts_what_it_read
             "http://minio.local" Http.session "raw" "processed" "img1"
             (mkState {[ "http://minio.local/raw/img1" := "pixels" ]} [])
             (200%Z, "pixels") (200%Z, "") "pixels"
             {[ "http://minio.local/raw/img1" := "pixels" ]}
             {[ "http://minio.local/raw/img1" := "pixels" ]}
             (<["http://minio.local/processed/img1" := "pixels"]>
                {[ "http://minio.local/raw/img1" := "pixels" ]}));
    try reflexivity.
  repeat split.
Defined.


(** X13.  [index_object_async] makes one [POST], to
    [weaviate_endpoint/objects], with the record of the object.  When the
    [POST] is answered, the function returns whether the status of the
    response is 200 and prints nothing: it returns [True] exactly for a
    status 200, and for any other status a [False] that no line
    explains. *)
Theorem index_object_async_returns_the_status_test {W Resp : Type}
    (weaviate_endpoint : string) (session : ClientSession W Resp)
    (class_name object_key : string) (metadata : Dict) (st : State W)
    (response : Resp) (w : W) :
  let index_url := weaviate_endpoint +:+ "/objects" in
  let object_data :=
    WeaviateClass.dict (index_data_object class_name object_key metadata) in
  let out :=
    index_object_async weaviate_endpoint session class_name object_key
      metadata st in
  session_post session index_url object_data (world st) = (Ret response, w) →
  out = (Ret (response_status session response =? 200)%Z,
         mkState w (trace st ++ [Call (SessionPost index_url object_data)])) ∧
  (out.1 = Ret true ↔ response_status session response = 200%Z) ∧
  (response_status session response ≠ 200%Z →
   out = (Ret false,
          mkState w (trace st ++ [Call (SessionPost index_url object_data)]))).
Proof.
  cbv zeta. intros Hpost.
  assert (Hout :
    index_object_async weaviate_endpoint session class_name object_key
      metadata st
    = (Ret (response_status session response =? 200)%Z,
       mkState w
         (trace st ++
          [Call (SessionPost (weaviate_endpoint +:+ "/objects")
                   (WeaviateClass.dict
                      (index_data_object class_name object_key metadata)))]))).
  { unfold index_object_async. unfold_monad. by rewrite Hpost. }
  rewrite Hout. cbn [fst]. split; [reflexivity|]. split.
  - split.
    + intros [= Hst]. by apply Z.eqb_eq.
    + intros ->. reflexivity.
  - intros Hne. apply Z.eqb_neq in Hne. by rewrite Hne.
Qed.

Lemma index_object_async_returns_the_status_test_witness :
  let object_data :=
    WeaviateClass.dict
      (index_data_object "ExampleClass" "object-key"
         {[ "metadata_key" := VStr "metadata_value" ]}) in
  index_object_async "http://weaviate.local" rejecting_session
    "ExampleClass" "object-key" {[ "metadata_key" := VStr "metadata_value" ]}
    (mkState tt [])
  = (Ret false,
     mkState tt
       [Call (SessionPost "http://weaviate.local/objects" object_data)]).
Proof.
  apply (index_object_async_returns_the_status_test
           "http://weaviate.local" rejecting_session "ExampleClass"
           "object-key" {[ "metadata_key" := VStr "metadata_value" ]}
           (mkState tt []) 500%Z tt).
  - reflexivity.
  - cbn. lia.
Defined.

(** ** The example run *)

(** X14.  [main] does not gate indexing on replication: whenever it
    returns, it has sent the [POST] for the example object to the index,
    has printed one of the two replication lines, and its last line is one
    of the two indexing lines.  It begins with the [GET] of the source
    object, and only an exception that does not derive from [Exception]
    can leave it. *)

Theorem main_indexes_whatever_replication_did {W Resp : Type}
    (session : ClientSession W Resp) (st : State W) :
  let out := main session st in
  ∃ delta,
    trace out.2 = trace st ++ delta ∧
    head (requests delta)
      = Some (SessionGet "http://minio.local/source-bucket/object-key") ∧
    (∀ e, out.1 = Raise e →
       derives_Exception e = false ∧ last (exceptions delta) = Some e) ∧
    (out.1 = Ret tt →
     SessionPost "http://weaviate.local/objects"
       (WeaviateClass.dict
          (index_data_object "ExampleClass" "object-key"
             {[ "metadata_key" := VStr "metadata_value" ]}))
       ∈ requests delta ∧
     ("Object replicated successfully." ∈ printed delta ∨
      "Failed to replicate object." ∈ printed delta) ∧
     (last (printed delta) = Some "Object indexed successfully." ∨
      last (printed delta) = Some "Failed to index object.")).
Proof.
  cbv zeta; symex_async; take_delta; (split; [reflexivity|]);
    (split; [intros e He; by simplify_eq|]);
    intros Hret;
    first [ discriminate Hret
          | split; [in_list|];
            split; first [left; in_list | right; in_list | by left | by right] ].
Qed.


Example main_on_an_empty_server :
  let out := main Http.session (mkState ∅ []) in
  out.1 = Ret tt ∧
  printed (trace out.2) =
    ["Failed to replicate object."; "Object indexed successfully."] ∧
  length (requests (trace out.2)) = 2.
Proof. repeat split; vm_compute; reflexivity. Qed.
